(** * Job-search caching and deduplication layer of Getajob-backend

    Shallow embedding of [services/scraper.py] (cache key, Redis cache
    helpers, [fetch_jobs]) and of the [search_jobs] handler of
    [routers/jobs.py].  Python strings are modelled as [string]s whose
    characters are the code points 0..255 (Latin-1), on which [str.lower]
    and [str.strip] are written out below. *)

From Stdlib Require Import ZArith Lia Ascii String Bool.
From stdpp Require Import base gmap sets list strings pretty sorting.

Open Scope Z_scope.

(* ------------------------------------------------------------------ *)
(** ** Python string primitives *)

Module Py.

(** [str.lower] on code points 0..255: A-Z, U+00C0..U+00D6 and
    U+00D8..U+00DE map to the code point 32 higher. *)
Definition lower_char (c : ascii) : ascii :=
  let n := nat_of_ascii c in
  if ((65 <=? n)%nat && (n <=? 90)%nat)
     || ((192 <=? n)%nat && (n <=? 222)%nat && negb (n =? 215)%nat)
  then ascii_of_nat (n + 32) else c.

Fixpoint lower (s : string) : string :=
  match s with
  | EmptyString => EmptyString
  | String c r => String (lower_char c) (lower r)
  end.

(** [str.isspace] on code points 0..255: \t \n \v \f \r, the separators
    U+001C..U+001F, space, U+0085 and U+00A0. *)
Definition isspace (c : ascii) : bool :=
  let n := nat_of_ascii c in
  ((9 <=? n)%nat && (n <=? 13)%nat) || ((28 <=? n)%nat && (n <=? 32)%nat)
  || (n =? 133)%nat || (n =? 160)%nat.

Fixpoint lstrip (s : string) : string :=
  match s with
  | EmptyString => EmptyString
  | String c r => if isspace c then lstrip r else s
  end.

Fixpoint rev_str (s : string) (acc : string) : string :=
  match s with
  | EmptyString => acc
  | String c r => rev_str r (String c acc)
  end.

Definition rstrip (s : string) : string :=
  rev_str (lstrip (rev_str s EmptyString)) EmptyString.

(** [str.strip()] *)
Definition strip (s : string) : string := rstrip (lstrip s).

(** Truthiness of a [str]. *)
Definition truthy (s : string) : bool :=
  match s with EmptyString => false | _ => true end.

(** [x or ''] for an optional string ([dict.get] returning [None]). *)
Definition or_empty (o : option string) : string :=
  match o with Some s => s | None => EmptyString end.

(** [l[:n]] *)
Definition slice_to {A} (l : list A) (n : Z) : list A :=
  if 0 <=? n then take (Z.to_nat n) l
  else take (length l - Z.to_nat (- n))%nat l.

(** [str.isdigit] on code points 0..255: 0-9 and the superscripts
    U+00B2, U+00B3, U+00B9. *)
Definition isdigit_char (c : ascii) : bool :=
  let n := nat_of_ascii c in
  ((48 <=? n)%nat && (n <=? 57)%nat) || (n =? 178)%nat || (n =? 179)%nat || (n =? 185)%nat.

(** [str.isdecimal] on code points 0..255: 0-9 only. *)
Definition isdecimal_char (c : ascii) : bool :=
  let n := nat_of_ascii c in (48 <=? n)%nat && (n <=? 57)%nat.

Fixpoint all_chars (p : ascii → bool) (s : string) : bool :=
  match s with
  | EmptyString => true
  | String c r => p c && all_chars p r
  end.

Definition isdigit (s : string) : bool := truthy s && all_chars isdigit_char s.

(** [int(s)] for a string of which [isdigit] holds: the decimal value
    when every character is one of 0-9, [None] ([ValueError]) otherwise. *)
Fixpoint int_of_digits_acc (s : string) (acc : Z) : option Z :=
  match s with
  | EmptyString => Some acc
  | String c r =>
      if isdecimal_char c
      then int_of_digits_acc r (10 * acc + Z.of_nat (nat_of_ascii c - 48))
      else None
  end.

Definition int_of_digits (s : string) : option Z := int_of_digits_acc s 0.

End Py.

(* ------------------------------------------------------------------ *)
(** ** Cache key ([_get_cache_key]) *)

Definition CACHE_PREFIX : string := "job_search:".

Definition _get_cache_key (query location date_posted sort_by : string) : string :=
  (CACHE_PREFIX ++ Py.strip (Py.lower query) ++ "|" ++ Py.strip (Py.lower location)
   ++ "|" ++ date_posted ++ "|" ++ sort_by)%string.

Example cache_key_example :
  _get_cache_key " Python Dev " "NYC" "week" "date"
  = "job_search:python dev|nyc|week|date"%string.
Proof. reflexivity. Qed.

(* ------------------------------------------------------------------ *)
(** ** Listings as returned by the JSearch API

    One JSON object of [data['data']]; every field is read with
    [job.get(...)], so each is optional ([None] for a missing key or a
    JSON null).  Salaries are the non-negative integers of the payload. *)

Record job := mk_job {
  job_id : option string;
  job_title : option string;
  employer_name : option string;
  job_city : option string;
  job_state : option string;
  job_country : option string;
  job_min_salary : option nat;
  job_max_salary : option nat;
  job_description : option string;
  job_apply_link : option string;
  job_google_link : option string;
  job_employment_type : option string;
  job_posted_at_datetime_utc : option string
}.

(** One page request of the [while] loop of [fetch_jobs]: either the
    [try] block raises ([requests.get] fails, [raise_for_status] on a
    non-success status, undecodable body) or it yields the decoded body,
    whose ['data'] key may be missing ([None]). *)
Inductive page_response :=
| PageError
| PageOk (data : option (list job)).

(** The upstream for one fixed query: the response to each page number. *)
Definition upstream : Type := nat -> page_response.

(* ------------------------------------------------------------------ *)
(** ** Pagination and deduplication ([fetch_jobs], lines 90-136) *)

Definition max_pages : nat := 3.

(** [for job in data['data']: jid = job.get('job_id');
     if jid and jid not in seen_ids: seen_ids.add(jid); all_jobs.append(job)] *)
Fixpoint add_page (jobs : list job) (all_jobs : list job) (seen_ids : gset string)
  : list job * gset string :=
  match jobs with
  | [] => (all_jobs, seen_ids)
  | j :: rest =>
      match job_id j with
      | Some jid =>
          if Py.truthy jid && bool_decide (jid ∉ seen_ids)
          then add_page rest (all_jobs ++ [j]) ({[jid]} ∪ seen_ids)
          else add_page rest all_jobs seen_ids
      | None => add_page rest all_jobs seen_ids
      end
  end.

(** The [while len(all_jobs) < max_jobs and page <= max_pages] loop.
    [fuel] bounds the iterations; [max_pages] of it suffices from page 1. *)
Fixpoint paginate_loop (fuel : nat) (up : upstream) (max_jobs : Z) (page : nat)
    (all_jobs : list job) (seen_ids : gset string) : list job :=
  match fuel with
  | O => all_jobs
  | S fuel' =>
      if (Z.of_nat (length all_jobs) <? max_jobs) && (page <=? max_pages)%nat then
        match up page with
        | PageError => all_jobs
        | PageOk (Some ((_ :: _) as data)) =>
            let '(all_jobs', seen_ids') := add_page data all_jobs seen_ids in
            if max_jobs <=? Z.of_nat (length all_jobs')
            then Py.slice_to all_jobs' max_jobs
            else paginate_loop fuel' up max_jobs (S page) all_jobs' seen_ids'
        | PageOk _ => all_jobs
        end
      else all_jobs
  end.

Definition paginate (up : upstream) (max_jobs : Z) : list job :=
  paginate_loop max_pages up max_jobs 1 [] ∅.

(* ------------------------------------------------------------------ *)
(** ** The Redis backend

    The exceptions redis-py raises that matter here.  In redis-py,
    [TimeoutError] and [ResponseError] derive from [RedisError], not from
    [ConnectionError]; a connect that times out raises [TimeoutError]. *)

Inductive redis_exn :=
| RConnectionError
| RTimeoutError
| RResponseError.

(** [except redis.ConnectionError] *)
Definition is_connection_error (e : redis_exn) : bool :=
  match e with RConnectionError => true | _ => false end.

(** A key stored by [SETEX]: the value (the JSON round trip of a list of
    listings is the identity) and its absolute expiry time in ms. *)
Record entry := mk_entry { e_value : list job; e_expire_at : Z }.

(** The state of the Redis server as seen by one call: the failure, if
    any, of [PING], [GET] and [SETEX], the key space and the server
    clock (ms). *)
Record backend := mk_backend {
  b_ping : option redis_exn;
  b_get : option redis_exn;
  b_set : option redis_exn;
  b_store : gmap string entry;
  b_now : Z
}.

(** Redis' expiry rule ([keyIsExpired] in db.c): a key with expiry time
    [when] is expired iff [now > when]. *)
Definition redis_get (b : backend) (key : string) : option (list job) :=
  match b_store b !! key with
  | Some e => if b_now b >? e_expire_at e then None else Some (e_value e)
  | None => None
  end.

(** [SETEX key seconds value]: expiry at [now + seconds * 1000]. *)
Definition redis_setex (b : backend) (key : string) (seconds : Z) (v : list job)
  : backend :=
  mk_backend (b_ping b) (b_get b) (b_set b)
    (<[key := mk_entry v (b_now b + seconds * 1000)]> (b_store b)) (b_now b).

(** The process state: whether the module global [_redis_client] is set,
    and the backend. *)
Record world := mk_world { w_client : bool; w_backend : backend }.

(** Result of a Python call: a value or a propagating exception. *)
Inductive outcome (A : Type) :=
| Ret (a : A)
| Exc (e : redis_exn).
Arguments Ret {A} a.
Arguments Exc {A} e.

Definition CACHE_TTL_SECONDS : Z := 2 * 60 * 60.

(** [_get_redis]: [redis.from_url] builds the client lazily (no I/O) and
    is assigned to the global before [ping]; only [redis.ConnectionError]
    is caught.  The boolean is [r is not None]. *)
Definition _get_redis (w : world) : outcome bool * world :=
  if w_client w then (Ret true, w)
  else
    let w1 := mk_world true (w_backend w) in
    match b_ping (w_backend w) with
    | None => (Ret true, w1)
    | Some e => if is_connection_error e then (Ret false, w1) else (Exc e, w1)
    end.

(** [_get_cached_jobs]: the call to [_get_redis] is outside the [try];
    errors of [r.get] are caught by [except Exception]. *)
Definition _get_cached_jobs (cache_key : string) (w : world)
  : outcome (option (list job)) * world :=
  match _get_redis w with
  | (Exc e, w') => (Exc e, w')
  | (Ret false, w') => (Ret None, w')
  | (Ret true, w') =>
      match b_get (w_backend w') with
      | Some _ => (Ret None, w')
      | None => (Ret (redis_get (w_backend w') cache_key), w')
      end
  end.

(** [_set_cache] *)
Definition _set_cache (cache_key : string) (jobs : list job) (w : world)
  : outcome unit * world :=
  match _get_redis w with
  | (Exc e, w') => (Exc e, w')
  | (Ret false, w') => (Ret tt, w')
  | (Ret true, w') =>
      match b_set (w_backend w') with
      | Some _ => (Ret tt, w')
      | None =>
          (Ret tt, mk_world (w_client w')
                     (redis_setex (w_backend w') cache_key CACHE_TTL_SECONDS jobs))
      end
  end.

(* ------------------------------------------------------------------ *)
(** ** [fetch_jobs]

    The upstream stands for the JSearch responses to [query] (and
    [location], [date_posted]) page by page. *)

Definition fetch_jobs (up : upstream) (query location : string) (max_jobs : Z)
    (date_posted sort_by : string) (refresh : bool) (w : world)
  : outcome (list job) * world :=
  let cache_key := _get_cache_key query location date_posted sort_by in
  match (if refresh then (Ret None, w) else _get_cached_jobs cache_key w) with
  | (Exc e, w1) => (Exc e, w1)
  | (Ret (Some cached_jobs), w1) => (Ret (Py.slice_to cached_jobs max_jobs), w1)
  | (Ret None, w1) =>
      let all_jobs := paginate up max_jobs in
      match all_jobs with
      | [] => (Ret all_jobs, w1)
      | _ :: _ =>
          match _set_cache cache_key all_jobs w1 with
          | (Exc e, w2) => (Exc e, w2)
          | (Ret _, w2) => (Ret all_jobs, w2)
          end
      end
  end.

(* ------------------------------------------------------------------ *)
(** ** The [/api/jobs/search] handler ([search_jobs]) *)

(** [JobSearchRequest] ([location] is not forwarded by the handler). *)
Record search_request := mk_request {
  rq_query : string;
  rq_location : string;
  rq_max_jobs : Z;
  rq_date_posted : string;
  rq_sort_by : string;
  rq_refresh : bool
}.

(** A row of [jobs] or [skipped_jobs]: title, company, location. *)
Definition row : Type := string * string * option string.

(** The authenticated user's saved rows and skipped rows. *)
Record user_rows := mk_user_rows { saved_rows : list row; skipped_rows : list row }.

Definition exclusion_key : Type := string * string * string.

(** [(row['title'].lower(), row['company'].lower(), (row['location'] or '').lower())] *)
Definition row_key (r : row) : exclusion_key :=
  let '(t, c, l) := r in (Py.lower t, Py.lower c, Py.lower (Py.or_empty l)).

Definition excluded_jobs (u : option user_rows) : list exclusion_key :=
  match u with
  | None => []
  | Some ur => map row_key (saved_rows ur) ++ map row_key (skipped_rows ur)
  end.

(** Decimal digits of a natural number. *)
Definition digits (n : nat) : string := pretty (N.of_nat n).

Definition pad3 (n : nat) : string :=
  if (n <? 10)%nat then ("00" ++ digits n)%string
  else if (n <? 100)%nat then ("0" ++ digits n)%string else digits n.

(** [f"{n:,}"]: decimal digits grouped by thousands. *)
Fixpoint thousands_fuel (fuel n : nat) : string :=
  match fuel with
  | O => digits n
  | S fuel' =>
      if (n <? 1000)%nat then digits n
      else (thousands_fuel fuel' (n / 1000) ++ "," ++ pad3 (n mod 1000))%string
  end.

Definition thousands (n : nat) : string := thousands_fuel n n.

Example thousands_example : thousands 4321 = "4,321"%string.
Proof. reflexivity. Qed.

(** Truthiness of an optional number. *)
Definition num_truthy (o : option nat) : option nat :=
  match o with Some (S _ as n) => Some n | _ => None end.

Definition format_salary (j : job) : option string :=
  match num_truthy (job_min_salary j), num_truthy (job_max_salary j) with
  | Some mn, Some mx => Some ("$" ++ thousands mn ++ " - $" ++ thousands mx)%string
  | Some mn, None => Some ("$" ++ thousands mn)%string
  | None, Some mx => Some ("$" ++ thousands mx)%string
  | None, None => None
  end.

Fixpoint join (sep : string) (parts : list string) : string :=
  match parts with
  | [] => EmptyString
  | [p] => p
  | p :: rest => (p ++ sep ++ join sep rest)%string
  end.

(** [job_location]: city, state, country, the non-empty ones joined by ", ". *)
Definition job_location (j : job) : string :=
  let location_parts :=
    filter (fun p => Py.truthy p = true)
      [Py.or_empty (job_city j); Py.or_empty (job_state j); Py.or_empty (job_country j)] in
  match location_parts with
  | [] => EmptyString
  | _ => join ", " location_parts
  end.

Definition title_of (j : job) : string := Py.or_empty (job_title j).
Definition company_of (j : job) : string := Py.or_empty (employer_name j).

(** [job_key = (title.lower(), company.lower(), job_location.lower())] *)
Definition job_key (j : job) : exclusion_key :=
  (Py.lower (title_of j), Py.lower (company_of j), Py.lower (job_location j)).

(** The dictionary sent to the frontend. *)
Record out_job := mk_out_job {
  o_title : string;
  o_company : string;
  o_location : string;
  o_salary : option string;
  o_description : string;
  o_url : string;
  o_job_type : string;
  o_posted_date : string
}.

Definition py_or (a b : string) : string := if Py.truthy a then a else b.

Definition format_job (j : job) : out_job :=
  mk_out_job (title_of j) (company_of j) (job_location j) (format_salary j)
    (substring 0 500 (Py.or_empty (job_description j)))
    (py_or (Py.or_empty (job_apply_link j)) (py_or (Py.or_empty (job_google_link j)) ""))
    (Py.or_empty (job_employment_type j))
    (Py.or_empty (job_posted_at_datetime_utc j)).

(** The [for job in raw_jobs] loop with its accumulators [jobs] and
    [filtered_count]. *)
Fixpoint transform_loop (authenticated : bool) (excluded : list exclusion_key)
    (raw_jobs : list job) (jobs : list out_job) (filtered_count : nat)
  : list out_job * nat :=
  match raw_jobs with
  | [] => (jobs, filtered_count)
  | j :: rest =>
      if authenticated && bool_decide (job_key j ∈ excluded)
      then transform_loop authenticated excluded rest jobs (S filtered_count)
      else transform_loop authenticated excluded rest (jobs ++ [format_job j]) filtered_count
  end.

Definition search_message (n_jobs filtered_count : nat) : string :=
  ("Found " ++ digits n_jobs ++ " jobs"
   ++ (if (0 <? filtered_count)%nat
       then " (" ++ digits filtered_count ++ " already saved/skipped)" else ""))%string.

Inductive response :=
| JSONResponse (jobs : list out_job) (message : string)
| HTTPError (status_code : Z) (detail : string).

Definition exn_detail (e : redis_exn) : string :=
  match e with
  | RConnectionError => "ConnectionError"
  | RTimeoutError => "Timeout connecting to server"
  | RResponseError => "ResponseError"
  end.

Definition search_jobs (up : upstream) (req : search_request)
    (current_user : option user_rows) (w : world) : response * world :=
  match fetch_jobs up (rq_query req) "" (rq_max_jobs req) (rq_date_posted req)
          (rq_sort_by req) (rq_refresh req) w with
  | (Exc e, w') => (HTTPError 500 (exn_detail e), w')
  | (Ret [], w') => (JSONResponse [] "No jobs found", w')
  | (Ret raw_jobs, w') =>
      let '(jobs, filtered_count) :=
        transform_loop (bool_decide (is_Some current_user))
          (excluded_jobs current_user) raw_jobs [] 0 in
      (JSONResponse jobs (search_message (length jobs) filtered_count), w')
  end.

(* ================================================================== *)
(** * The PostgreSQL-backed endpoints of [routers/jobs.py]

    The two tables as the handlers' queries use them.  [id] is a serial
    key drawn from a sequence; the [ON CONFLICT] clauses presuppose a
    unique index on [jobs.job_id] and on
    [skipped_jobs (user_id, title, company, location)].  A PostgreSQL
    sequence is not rolled back: an insert that hits a conflict has
    consumed its [nextval] all the same.  Timestamps are integers. *)

Record job_row := mk_job_row {
  jr_id : Z;
  jr_job_id : option string;
  jr_title : option string;
  jr_company : option string;
  jr_location : option string;
  jr_salary : option string;
  jr_job_type : option string;
  jr_description : option string;
  jr_url : option string;
  jr_posted_date : option string;
  jr_source : option string;
  jr_user_id : option Z
}.

Record skipped_row := mk_skipped_row {
  sr_id : Z;
  sr_user_id : Z;
  sr_title : string;
  sr_company : string;
  sr_location : string;
  sr_skipped_at : Z
}.

(** The database: whether [get_connection()] succeeds, the two tables in
    storage order, the next value of each [id] sequence and the clock. *)
Record db := mk_db {
  db_up : bool;
  jobs_tbl : list job_row;
  skipped_tbl : list skipped_row;
  jobs_seq : Z;
  skipped_seq : Z;
  db_now : Z
}.

(** The [psycopg2.Error]s the handlers meet: [get_connection()] failing
    and a unique-index violation. *)
Inductive db_exn := OperationalError | UniqueViolation.

(** [str(e)] of such an error: the server's message. *)
Definition pg_detail (e : db_exn) : string :=
  match e with
  | OperationalError => "could not connect to server"
  | UniqueViolation => "duplicate key value violates unique constraint"
  end.

(** Exceptions that escape every handler of the endpoint. *)
Inductive py_exn := ValueError.

(** What an endpoint answers: its JSON body, an [HTTPException], or an
    exception no [except] clause of the handler catches. *)
Inductive api_result (A : Type) :=
| ApiOk (body : A)
| ApiHTTP (status_code : Z) (detail : string)
| ApiRaise (e : py_exn).
Arguments ApiOk {A} body.
Arguments ApiHTTP {A} status_code detail.
Arguments ApiRaise {A} e.

Definition set_jobs (d : db) (t : list job_row) (seq : Z) : db :=
  mk_db (db_up d) t (skipped_tbl d) seq (skipped_seq d) (db_now d).

Definition set_skipped (d : db) (t : list skipped_row) (seq : Z) : db :=
  mk_db (db_up d) (jobs_tbl d) t (jobs_seq d) seq (db_now d).

(** [JobSave] and [JobSkip]. *)
Record job_save := mk_job_save {
  js_title : string;
  js_company : string;
  js_location : option string;
  js_salary : option string;
  js_description : option string;
  js_url : option string;
  js_job_type : option string;
  js_posted_date : option string
}.

Record job_skip := mk_job_skip {
  jk_title : string;
  jk_company : string;
  jk_location : option string
}.

(** [x if x else None] for an optional string. *)
Definition opt_truthy (o : option string) : option string :=
  match o with Some s => if Py.truthy s then Some s else None | None => None end.

(** [save_job]: [job_id] is [str(uuid.uuid4())[:20]], passed in as
    [uuid20]; [INSERT ... RETURNING id]. *)
Definition save_job (job : job_save) (user_id : Z) (uuid20 : string) (d : db)
  : api_result Z * db :=
  if negb (db_up d) then (ApiHTTP 500 (pg_detail OperationalError), d) else
  let id := jobs_seq d in
  if bool_decide (Some uuid20 ∈ map jr_job_id (jobs_tbl d))
  then (ApiHTTP 500 (pg_detail UniqueViolation), set_jobs d (jobs_tbl d) (id + 1))
  else
    let r := mk_job_row id (Some uuid20) (Some (js_title job)) (Some (js_company job))
               (js_location job) (js_salary job) (js_job_type job) (js_description job)
               (js_url job) (opt_truthy (js_posted_date job)) (Some "user_saved")
               (Some user_id) in
    (ApiOk id, set_jobs d (jobs_tbl d ++ [r]) (id + 1)).

(** [DELETE FROM jobs WHERE id = %s AND user_id = %s RETURNING id]: no
    returned row gives 404 (and nothing to commit). *)
Definition job_matches (job_id user_id : Z) (r : job_row) : Prop :=
  jr_id r = job_id ∧ jr_user_id r = Some user_id.

Definition delete_job (job_id user_id : Z) (d : db) : api_result unit * db :=
  if negb (db_up d) then (ApiHTTP 500 (pg_detail OperationalError), d) else
  match filter (job_matches job_id user_id) (jobs_tbl d) with
  | [] => (ApiHTTP 404 "Job not found", d)
  | _ :: _ =>
      (ApiOk tt, set_jobs d (filter (λ r, ¬ job_matches job_id user_id r) (jobs_tbl d))
                   (jobs_seq d))
  end.

(** The unique key of [skipped_jobs]. *)
Definition skip_key (r : skipped_row) : Z * string * string * string :=
  (sr_user_id r, sr_title r, sr_company r, sr_location r).

(** [skip_job]: [INSERT ... ON CONFLICT (user_id, title, company,
    location) DO NOTHING] with [job.location or '']. *)
Definition skip_job (job : job_skip) (user_id : Z) (d : db) : api_result unit * db :=
  if negb (db_up d) then (ApiHTTP 500 (pg_detail OperationalError), d) else
  let id := skipped_seq d in
  let r := mk_skipped_row id user_id (jk_title job) (jk_company job)
             (Py.or_empty (jk_location job)) (db_now d) in
  if bool_decide (skip_key r ∈ map skip_key (skipped_tbl d))
  then (ApiOk tt, set_skipped d (skipped_tbl d) (id + 1))
  else (ApiOk tt, set_skipped d (skipped_tbl d ++ [r]) (id + 1)).

Definition skipped_matches (skipped_id user_id : Z) (r : skipped_row) : Prop :=
  sr_id r = skipped_id ∧ sr_user_id r = user_id.

Definition delete_skipped_job (skipped_id user_id : Z) (d : db) : api_result unit * db :=
  if negb (db_up d) then (ApiHTTP 500 (pg_detail OperationalError), d) else
  match filter (skipped_matches skipped_id user_id) (skipped_tbl d) with
  | [] => (ApiHTTP 404 "Skipped job not found", d)
  | _ :: _ =>
      (ApiOk tt, set_skipped d (filter (λ r, ¬ skipped_matches skipped_id user_id r)
                                  (skipped_tbl d)) (skipped_seq d))
  end.

(** [column ILIKE pattern]: [ilike value pattern] is PostgreSQL's
    case-insensitive [LIKE]; a NULL column never matches. *)
Definition ilike_col (ilike : string → string → bool) (v : option string) (pat : string)
  : bool :=
  match v with Some s => ilike s pat | None => false end.

(** [ORDER BY id DESC] *)
Definition id_desc (a b : job_row) : Prop := jr_id b ≤ jr_id a.

Global Instance id_desc_dec : RelDecision id_desc :=
  λ a b, decide (jr_id b ≤ jr_id a).

(** [get_jobs]: the user's rows, [company ILIKE '%c%'] when [company] is
    truthy, [location ILIKE 'l%'] when [location] is truthy. *)
Definition get_jobs (ilike : string → string → bool) (company location : option string)
    (user_id : Z) (d : db) : api_result (list job_row) :=
  if negb (db_up d) then ApiHTTP 500 (pg_detail OperationalError) else
  let company_ok (r : job_row) : bool :=
    match opt_truthy company with
    | Some c => ilike_col ilike (jr_company r) ("%" ++ c ++ "%")
    | None => true
    end in
  let location_ok (r : job_row) : bool :=
    match opt_truthy location with
    | Some l => ilike_col ilike (jr_location r) (l ++ "%")
    | None => true
    end in
  ApiOk (merge_sort id_desc
           (filter (λ r, jr_user_id r = Some user_id ∧ company_ok r = true
                         ∧ location_ok r = true) (jobs_tbl d))).

(** [cursor.fetchone()] on the rows a [WHERE] clause selects, taken in
    storage order. *)
Fixpoint fetchone (p : job_row → bool) (rs : list job_row) : option job_row :=
  match rs with
  | [] => None
  | r :: rest => if p r then Some r else fetchone p rest
  end.

(** [get_job]: [job_id.isdigit()] selects [WHERE id = int(job_id) OR
    job_id = %s], otherwise [WHERE job_id = %s]; only [psycopg2.Error] is
    caught, so the [ValueError] of [int()] escapes. *)
Definition get_job (job_id : string) (d : db) : api_result job_row :=
  if negb (db_up d) then ApiHTTP 500 (pg_detail OperationalError) else
  let found :=
    if Py.isdigit job_id then
      match Py.int_of_digits job_id with
      | None => inl ValueError
      | Some n =>
          inr (fetchone (λ r, bool_decide (jr_id r = n) || bool_decide (jr_job_id r = Some job_id))
                 (jobs_tbl d))
      end
    else inr (fetchone (λ r, bool_decide (jr_job_id r = Some job_id)) (jobs_tbl d)) in
  match found with
  | inl e => ApiRaise e
  | inr None => ApiHTTP 404 "Job not found"
  | inr (Some r) => ApiOk r
  end.

(** The rows [search_jobs] reads for an authenticated user (the two
    [SELECT title, company, location ... WHERE user_id = %s]); [None] when
    the connection fails or a NULL title or company makes [.lower()]
    raise, both of which [search_jobs] turns into a 500. *)
Fixpoint user_saved_rows (user_id : Z) (rs : list job_row) : option (list row) :=
  match rs with
  | [] => Some []
  | r :: rest =>
      if bool_decide (jr_user_id r = Some user_id) then
        match jr_title r, jr_company r, user_saved_rows user_id rest with
        | Some t, Some c, Some acc => Some ((t, c, jr_location r) :: acc)
        | _, _, _ => None
        end
      else user_saved_rows user_id rest
  end.

Definition skipped_row_of (r : skipped_row) : row :=
  (sr_title r, sr_company r, Some (sr_location r)).

Definition load_user_rows (d : db) (user_id : Z) : option user_rows :=
  if negb (db_up d) then None else
  match user_saved_rows user_id (jobs_tbl d) with
  | Some saved =>
      Some (mk_user_rows saved
              (map skipped_row_of (filter (λ r, sr_user_id r = user_id) (skipped_tbl d))))
  | None => None
  end.

(* ================================================================== *)
(** * Specification-side notions *)

(** The identifier a listing is deduplicated by: [job.get('job_id')] when
    truthy; a missing, null or empty identifier is unusable. *)
Definition usable_id (j : job) : option string :=
  match job_id j with
  | Some s => if Py.truthy s then Some s else None
  | None => None
  end.

Definition ids_of (l : list job) : list string := omap usable_id l.

(** First-seen-wins deduplication, stated positionally: a listing is
    kept iff it has a usable identifier that no listing before it has. *)
Fixpoint first_seen (before : list job) (l : list job) : list job :=
  match l with
  | [] => []
  | j :: rest =>
      match usable_id j with
      | Some i =>
          if bool_decide (i ∈ ids_of before)
          then first_seen (before ++ [j]) rest
          else j :: first_seen (before ++ [j]) rest
      | None => first_seen (before ++ [j]) rest
      end
  end.

(** A page that carries listings. *)
Definition has_data (r : page_response) : bool :=
  match r with PageOk (Some (_ :: _)) => true | _ => false end.

Definition page_data (r : page_response) : list job :=
  match r with PageOk (Some l) => l | _ => [] end.

(** The listings of [k] consecutive pages starting at [page]. *)
Definition pages_data (up : upstream) (page k : nat) : list job :=
  concat (map (fun i => page_data (up i)) (seq page k)).

(** The exclusion filter of the spec: keep the listings whose key is not
    in the user's excluded set. *)
Definition not_excluded (u : option user_rows) (j : job) : Prop :=
  job_key j ∉ excluded_jobs u.

(** The integrity of the two tables the handlers rely on: distinct
    serial ids, all below the next value of their sequence, distinct
    non-NULL [jobs.job_id]s and distinct [skipped_jobs] keys. *)
Definition db_wf (d : db) : Prop :=
  NoDup (map jr_id (jobs_tbl d)) ∧ Forall (λ r, jr_id r < jobs_seq d) (jobs_tbl d) ∧
  NoDup (omap jr_job_id (jobs_tbl d)) ∧
  NoDup (map sr_id (skipped_tbl d)) ∧ Forall (λ r, sr_id r < skipped_seq d) (skipped_tbl d) ∧
  NoDup (map skip_key (skipped_tbl d)).

(* ================================================================== *)
(** * Sample inputs *)

Definition sample_job (id title company city : string) : job :=
  mk_job (Some id) (Some title) (Some company) (Some city)
    None None None None None None None None None.

(** [count] listings with distinct identifiers [start], [start+1], ... *)
Definition numbered_jobs (start count : nat) : list job :=
  map (fun i => sample_job (digits i) "Engineer" "Acme" "NYC") (seq start count).

Definition empty_backend (now : Z) : backend := mk_backend None None None ∅ now.

(** A process that has not touched Redis yet. *)
Definition fresh_world : world := mk_world false (empty_backend 0).

Definition sample_request (refresh : bool) (max_jobs : Z) : search_request :=
  mk_request "python developer" "" max_jobs "week" "date" refresh.

Definition sample_key : string := _get_cache_key "python developer" "" "week" "date".

(** Every page request fails. *)
Definition all_fail : upstream := fun _ => PageError.

(** The upstream has no listings at all. *)
Definition no_jobs : upstream := fun _ => PageOk (Some []).

Definition engineer_job : job := sample_job "j1" "Engineer" "Acme" "NYC".
Definition analyst_job : job := sample_job "j2" "Analyst" "Foo" "LA".

(** A user who saved the Acme engineering job. *)
Definition engineer_saver : user_rows :=
  mk_user_rows [("engineer", "acme", Some "nyc")%string] [].

(** A saved job of a user. *)
Definition sample_row (id : Z) (job_id title company location : string) (user_id : Z)
  : job_row :=
  mk_job_row id (Some job_id) (Some title) (Some company) (Some location)
    None None None None None (Some "user_saved") (Some user_id).

(** Users 1 and 2: user 1 saved jobs 1 and 3, user 2 saved job 2 and
    skipped one listing. *)
Definition sample_db : db :=
  mk_db true
    [sample_row 1 "3f2a" "Engineer" "Acme" "NYC" 1;
     sample_row 2 "9c1e" "Analyst" "Foo" "LA" 2;
     sample_row 3 "77b0" "Designer" "Bar" "SF" 1]
    [mk_skipped_row 1 2 "Cook" "Diner" "Boston" 100] 4 2 200.

(* ================================================================== *)
(** * Lemmas *)

Lemma transform_loop_spec (u : option user_rows) (raw : list job)
    (jobs : list out_job) (cnt : nat) :
  transform_loop (bool_decide (is_Some u)) (excluded_jobs u) raw jobs cnt
  = (jobs ++ map format_job (filter (not_excluded u) raw),
     (cnt + length (filter (fun j => job_key j ∈ excluded_jobs u) raw))%nat).
Proof.
  revert jobs cnt. induction raw as [|j raw IH]; intros jobs cnt; cbn [transform_loop].
  - by rewrite app_nil_r, Nat.add_0_r.
  - destruct (decide (job_key j ∈ excluded_jobs u)) as [Hin|Hin].
    + destruct u as [ur|]; [|simpl in Hin; set_solver].
      rewrite bool_decide_true by done. simpl. rewrite bool_decide_true by done.
      rewrite IH, filter_cons_False, filter_cons_True by (unfold not_excluded; tauto).
      simpl. f_equal. lia.
    + rewrite IH, filter_cons_True, filter_cons_False by (unfold not_excluded; tauto).
      replace (bool_decide (is_Some u) && bool_decide (job_key j ∈ excluded_jobs u))
        with false by (by rewrite (bool_decide_false (_ ∈ _)), andb_false_r).
      rewrite IH. simpl. by rewrite <- app_assoc.
Qed.

Lemma ids_of_app (l1 l2 : list job) : ids_of (l1 ++ l2) = ids_of l1 ++ ids_of l2.
Proof. unfold ids_of. apply omap_app. Qed.

Lemma ids_of_cons (j : job) (l : list job) :
  ids_of (j :: l) = match usable_id j with Some i => i :: ids_of l | None => ids_of l end.
Proof. unfold ids_of. simpl. by destruct (usable_id j). Qed.

(** The loop body over one page computes [first_seen], with [seen_ids]
    holding exactly the identifiers met so far. *)
Lemma add_page_first_seen (l before all : list job) (seen : gset string) :
  (∀ i, i ∈ seen ↔ i ∈ ids_of before) →
  fst (add_page l all seen) = all ++ first_seen before l ∧
  (∀ i, i ∈ snd (add_page l all seen) ↔ i ∈ ids_of (before ++ l)).
Proof.
  revert before all seen.
  induction l as [|j l IH]; intros before all seen Hseen; simpl.
  - by rewrite !app_nil_r.
  - rewrite (cons_middle j before l), app_assoc.
    unfold usable_id in *. destruct (job_id j) as [jid|] eqn:Hid.
    + destruct (Py.truthy jid) eqn:Ht; simpl.
      * destruct (decide (jid ∈ seen)) as [Hin|Hin].
        -- rewrite bool_decide_false by tauto.
           rewrite bool_decide_true by (by apply Hseen).
           apply IH. intros i. rewrite ids_of_app, ids_of_cons.
           unfold usable_id. rewrite Hid, Ht. set_solver.
        -- rewrite bool_decide_true by done.
           rewrite bool_decide_false by (by rewrite <- Hseen).
           destruct (IH (before ++ [j]) (all ++ [j]) ({[jid]} ∪ seen)) as [H1 H2].
           { intros i. rewrite ids_of_app, ids_of_cons.
             unfold usable_id. rewrite Hid, Ht. set_solver. }
           split; [by rewrite H1, <- app_assoc|exact H2].
      * apply IH. intros i. rewrite ids_of_app, ids_of_cons.
        unfold usable_id. rewrite Hid, Ht. set_solver.
    + apply IH. intros i. rewrite ids_of_app, ids_of_cons.
      unfold usable_id. rewrite Hid. set_solver.
Qed.

Lemma first_seen_app (before l1 l2 : list job) :
  first_seen before (l1 ++ l2) = first_seen before l1 ++ first_seen (before ++ l1) l2.
Proof.
  revert before. induction l1 as [|j l1 IH]; intros before; simpl.
  - by rewrite app_nil_r.
  - rewrite (cons_middle j before l1), app_assoc.
    destruct (usable_id j) as [i|]; [case_bool_decide|]; simpl; by rewrite IH.
Qed.

Lemma first_seen_usable (before l : list job) (j : job) :
  j ∈ first_seen before l → ∃ i, usable_id j = Some i ∧ (i ∉ ids_of before) ∧ i ∈ ids_of l.
Proof.
  revert before. induction l as [|x l IH]; intros before Hj; simpl in Hj.
  - set_solver.
  - rewrite ids_of_cons.
    destruct (usable_id x) as [i|] eqn:Hx; [case_bool_decide|].
    + destruct (IH _ Hj) as (k & Hk & Hn & Hl). rewrite ids_of_app in Hn.
      exists k. set_solver.
    + apply elem_of_cons in Hj as [->|Hj].
      * exists i. set_solver.
      * destruct (IH _ Hj) as (k & Hk & Hn & Hl). rewrite ids_of_app in Hn.
        exists k. set_solver.
    + destruct (IH _ Hj) as (k & Hk & Hn & Hl). rewrite ids_of_app in Hn.
      exists k. set_solver.
Qed.

Lemma first_seen_ids_NoDup (before l : list job) :
  NoDup (ids_of (first_seen before l)).
Proof.
  revert before. induction l as [|x l IH]; intros before; simpl.
  - constructor.
  - destruct (usable_id x) as [i|] eqn:Hx; [case_bool_decide|]; auto.
    rewrite ids_of_cons, Hx. constructor; [|auto].
    intros Hin. unfold ids_of in Hin. apply list_elem_of_omap in Hin as (k & Hk & Hki).
    destruct (first_seen_usable _ _ _ Hk) as (i' & Hi' & Hn & _).
    rewrite Hki in Hi'. injection Hi' as <-. apply Hn.
    rewrite ids_of_app, ids_of_cons, Hx. set_solver.
Qed.

Lemma first_seen_ids_complete (before l : list job) (i : string) :
  i ∈ ids_of l → i ∉ ids_of before → i ∈ ids_of (first_seen before l).
Proof.
  revert before. induction l as [|x l IH]; intros before Hl Hb; simpl.
  - done.
  - rewrite ids_of_cons in Hl.
    destruct (usable_id x) as [k|] eqn:Hx; [case_bool_decide|].
    + apply IH; [set_solver|]. rewrite ids_of_app, ids_of_cons, Hx. set_solver.
    + rewrite ids_of_cons, Hx.
      destruct (decide (i = k)) as [->|Hne]; [set_solver|].
      apply elem_of_cons. right. apply IH; [set_solver|].
      rewrite ids_of_app, ids_of_cons, Hx. set_solver.
    + apply IH; [done|]. rewrite ids_of_app, ids_of_cons, Hx. set_solver.
Qed.

Lemma first_seen_length (l : list job) :
  length (first_seen [] l) = length (remove_dups (ids_of l)).
Proof.
  assert (Hlen : length (ids_of (first_seen [] l)) = length (first_seen [] l)).
  { generalize (first_seen_usable [] l). generalize (first_seen [] l) as acc.
    induction acc as [|j acc IH]; intros Hu; [done|].
    rewrite ids_of_cons. destruct (Hu j ltac:(set_solver)) as (i & -> & _).
    simpl. f_equal. apply IH. intros x Hx. apply Hu. set_solver. }
  rewrite <- Hlen. apply Permutation_length, NoDup_Permutation.
  - apply first_seen_ids_NoDup.
  - apply NoDup_remove_dups.
  - intros i. rewrite elem_of_remove_dups. split.
    + intros Hin. apply list_elem_of_omap in Hin as (k & Hk & Hki).
      destruct (first_seen_usable _ _ _ Hk) as (i' & Hi' & _ & Hl).
      by rewrite Hki in Hi'; injection Hi' as <-.
    + intros Hin. apply first_seen_ids_complete; [done|]. set_solver.
Qed.

Lemma first_seen_length_app (before l1 l2 : list job) :
  (length (first_seen before l1) <= length (first_seen before (l1 ++ l2)))%nat.
Proof. rewrite first_seen_app, length_app. lia. Qed.

Lemma pages_data_S (up : upstream) (page k : nat) :
  pages_data up page (S k) = page_data (up page) ++ pages_data up (S page) k.
Proof. done. Qed.

Lemma pages_data_add (up : upstream) (page k m : nat) :
  pages_data up page (k + m) = pages_data up page k ++ pages_data up (page + k) m.
Proof. unfold pages_data. by rewrite seq_app, map_app, concat_app. Qed.

Lemma slice_to_small {A} (l : list A) (n : Z) :
  Z.of_nat (length l) < n → Py.slice_to l n = l.
Proof.
  intros H. unfold Py.slice_to. rewrite (proj2 (Z.leb_le 0 n)) by lia.
  apply take_ge. lia.
Qed.

Lemma slice_to_take {A} (l : list A) (n : Z) :
  0 <= n → Py.slice_to l n = take (Z.to_nat n) l.
Proof. intros H. unfold Py.slice_to. by rewrite (proj2 (Z.leb_le 0 n)). Qed.

(** The pagination loop: it consumes [k] consecutive pages carrying data,
    its result is the first-seen deduplication of their listings, sliced
    to [max_jobs]; it requested each of these pages while the deduplicated
    count was below [max_jobs], and it stopped because that count was
    reached, the page bound was passed, or the next page carried no data. *)
Lemma paginate_loop_spec_full (up : upstream) (n : Z) (fuel page : nat)
    (all before : list job) (seen : gset string) :
  (∀ i, i ∈ seen ↔ i ∈ ids_of before) →
  Py.slice_to all n = all →
  (max_pages < page + fuel)%nat →
  ∃ k, (∀ i, (page <= i < page + k)%nat → (i <= max_pages)%nat ∧ has_data (up i) = true) ∧
    paginate_loop fuel up n page all seen
      = Py.slice_to (all ++ first_seen before (pages_data up page k)) n ∧
    (n <= Z.of_nat (length (all ++ first_seen before (pages_data up page k)))
     ∨ ((page + k <= max_pages)%nat → has_data (up (page + k)%nat) = false)) ∧
    (∀ k', (k' < k)%nat →
       Z.of_nat (length (all ++ first_seen before (pages_data up page k'))) < n).
Proof.
  revert page all before seen.
  induction fuel as [|fuel IH]; intros page all before seen Hseen Hall Hfuel.
  - exists 0%nat. split; [lia|]. cbn. rewrite app_nil_r.
    split; [done|]. split; [right; lia|intros; lia].
  - assert (Hstop : paginate_loop (S fuel) up n page all seen = all →
              (n <= Z.of_nat (length all) ∨ ((page <= max_pages)%nat → has_data (up page) = false)) →
              ∃ k, (∀ i, (page <= i < page + k)%nat → (i <= max_pages)%nat ∧ has_data (up i) = true) ∧
                paginate_loop (S fuel) up n page all seen
                  = Py.slice_to (all ++ first_seen before (pages_data up page k)) n ∧
                (n <= Z.of_nat (length (all ++ first_seen before (pages_data up page k)))
                 ∨ ((page + k <= max_pages)%nat → has_data (up (page + k)%nat) = false)) ∧
                (∀ k', (k' < k)%nat →
                   Z.of_nat (length (all ++ first_seen before (pages_data up page k'))) < n)).
    { intros Heq Hwhy. exists 0%nat. rewrite Heq. split; [lia|].
      cbn [pages_data seq map concat first_seen]. rewrite app_nil_r, Nat.add_0_r.
      split; [by rewrite Hall|]. split; [done|intros; lia]. }
    destruct (Z.of_nat (length all) <? n) eqn:Hlt.
    2:{ apply Hstop; [by cbn; rewrite Hlt|left; apply Z.ltb_ge in Hlt; lia]. }
    destruct (page <=? max_pages)%nat eqn:Hle.
    2:{ apply Hstop; [by cbn; rewrite Hlt, Hle|right; apply Nat.leb_gt in Hle; lia]. }
    destruct (up page) as [|[[|x xs]|]] eqn:Hup;
      try (apply Hstop; [cbn; rewrite Hlt, Hle, Hup; reflexivity|right; intros; reflexivity]).
    cbn [paginate_loop]. rewrite Hlt, Hle, Hup. cbn [andb].
    apply Z.ltb_lt in Hlt. apply Nat.leb_le in Hle.
    destruct (add_page_first_seen (x :: xs) before all seen Hseen) as [H1 H2].
    destruct (add_page (x :: xs) all seen) as [all' seen'] eqn:Hadd. cbn [fst snd] in H1, H2.
    assert (Hfirst : Z.of_nat (length (all ++ first_seen before (pages_data up page 0))) < n).
    { cbn [pages_data seq map concat first_seen]. by rewrite app_nil_r. }
    destruct (n <=? Z.of_nat (length all')) eqn:Hreach.
    + exists 1%nat. split.
      { intros i Hi. assert (i = page) as -> by lia. by rewrite Hup. }
      split; [|split].
      3:{ intros k' Hk'. assert (k' = 0%nat) as -> by lia. exact Hfirst. }
      all: rewrite pages_data_S; cbn [pages_data seq map concat]; rewrite Hup;
        cbn [page_data]; rewrite !app_nil_r, <- H1.
      * done.
      * left. by apply Z.leb_le.
    + apply Z.leb_gt in Hreach.
      destruct (IH (S page) all' (before ++ x :: xs) seen' H2
                  (slice_to_small _ _ Hreach) ltac:(lia)) as (k & Hk & Heq & Hwhy & Hmore).
      exists (S k). split.
      { intros i Hi. destruct (decide (i = page)) as [->|Hne]; [by rewrite Hup|].
        apply Hk. lia. }
      split; [|split].
      3:{ intros [|k'] Hk'; [exact Hfirst|].
          rewrite pages_data_S, Hup. cbn [page_data]. rewrite first_seen_app, app_assoc, <- H1.
          apply Hmore. lia. }
      all: rewrite pages_data_S, Hup; cbn [page_data]; rewrite first_seen_app, app_assoc, <- H1.
      * exact Heq.
      * replace (page + S k)%nat with (S page + k)%nat by lia. exact Hwhy.
Qed.

(** [fetch_jobs]'s loop from page 1 with nothing accumulated. *)
Lemma paginate_spec_full (up : upstream) (n : Z) :
  ∃ k, (∀ i, (1 <= i <= k)%nat → (i <= max_pages)%nat ∧ has_data (up i) = true) ∧
    paginate up n = Py.slice_to (first_seen [] (pages_data up 1 k)) n ∧
    (n <= Z.of_nat (length (first_seen [] (pages_data up 1 k)))
     ∨ ((S k <= max_pages)%nat → has_data (up (S k)) = false)) ∧
    (∀ k', (k' < k)%nat → Z.of_nat (length (first_seen [] (pages_data up 1 k'))) < n).
Proof.
  destruct (paginate_loop_spec_full up n max_pages 1 [] [] ∅) as (k & Hk & Heq & Hwhy & Hmore).
  - intros i. unfold ids_of. simpl. set_solver.
  - unfold Py.slice_to. destruct (0 <=? n); apply take_nil.
  - unfold max_pages. lia.
  - exists k. split; [intros i Hi; apply Hk; lia|].
    split; [exact Heq|]. split; [exact Hwhy|exact Hmore].
Qed.

Lemma paginate_spec (up : upstream) (n : Z) :
  ∃ k, (∀ i, (1 <= i <= k)%nat → (i <= max_pages)%nat ∧ has_data (up i) = true) ∧
    paginate up n = Py.slice_to (first_seen [] (pages_data up 1 k)) n ∧
    (n <= Z.of_nat (length (first_seen [] (pages_data up 1 k)))
     ∨ ((S k <= max_pages)%nat → has_data (up (S k)) = false)).
Proof.
  destruct (paginate_spec_full up n) as (k & Hk & Heq & Hwhy & _).
  exists k. split; [exact Hk|]. split; [exact Heq|exact Hwhy].
Qed.

Lemma first_seen_pages_prefix (up : upstream) (k m : nat) :
  ∃ rest, first_seen [] (pages_data up 1 (k + m)) = first_seen [] (pages_data up 1 k) ++ rest.
Proof. rewrite pages_data_add, first_seen_app. by eexists. Qed.

Lemma length_le_max_pages (up : upstream) (k : nat) :
  (∀ i, (1 <= i <= k)%nat → (i <= max_pages)%nat ∧ has_data (up i) = true) →
  (k <= max_pages)%nat.
Proof. intros Hk. destruct k as [|k]; [lia|]. apply (Hk (S k)). lia. Qed.

Lemma get_redis_backend (w : world) : w_backend (snd (_get_redis w)) = w_backend w.
Proof.
  unfold _get_redis. destruct (w_client w); [done|].
  destruct (b_ping (w_backend w)) as [e|]; [destruct (is_connection_error e)|]; done.
Qed.

Lemma get_cached_jobs_backend (key : string) (w : world) :
  w_backend (snd (_get_cached_jobs key w)) = w_backend w.
Proof.
  unfold _get_cached_jobs. rewrite <- (get_redis_backend w).
  destruct (_get_redis w) as [[[|]|e] w'];
    try destruct (b_get (w_backend w')); done.
Qed.

Lemma set_cache_store (key : string) (v : list job) (w : world) :
  b_store (w_backend (snd (_set_cache key v w))) = b_store (w_backend w) ∨
  b_store (w_backend (snd (_set_cache key v w)))
    = <[key := mk_entry v (b_now (w_backend w) + CACHE_TTL_SECONDS * 1000)]> (b_store (w_backend w)).
Proof.
  unfold _set_cache. rewrite <- (get_redis_backend w).
  destruct (_get_redis w) as [[[|]|e] w']; simpl; try (left; done).
  destruct (b_set (w_backend w')); [left; done|right; done].
Qed.

Lemma paginate_no_data (up : upstream) (n : Z) :
  has_data (up 1%nat) = false → paginate up n = [].
Proof.
  intros H1. destruct (paginate_spec up n) as (k & Hk & Heq & _).
  destruct k as [|k]; [|rewrite (proj2 (Hk 1%nat ltac:(lia))) in H1; discriminate].
  rewrite Heq. cbn. unfold Py.slice_to. destruct (0 <=? n); apply take_nil.
Qed.

(* ================================================================== *)
(** * Claims *)

(** ** C1: total upstream failure *)

(** C1 (as amended).  When every page request fails, the pagination
    loop returns the empty list and [search_jobs] answers exactly as it
    does for an upstream with no listings at all; on a cache miss (a
    refresh, or a lookup that finds nothing) that answer is the empty
    success [{"jobs": [], "message": "No jobs found"}], not an error. *)
Theorem total_failure_is_empty_success (up : upstream) (req : search_request)
    (u : option user_rows) (w : world) :
  (∀ p, up p = PageError) →
  (∀ n, paginate up n = []) ∧
  search_jobs up req u w = search_jobs no_jobs req u w ∧
  (rq_refresh req = true → search_jobs up req u w = (JSONResponse [] "No jobs found", w)) ∧
  (∀ w1, rq_refresh req = false →
     _get_cached_jobs (_get_cache_key (rq_query req) "" (rq_date_posted req) (rq_sort_by req)) w
       = (Ret None, w1) →
     search_jobs up req u w = (JSONResponse [] "No jobs found", w1)).
Proof.
  intros Hfail.
  assert (E0 : ∀ n, paginate up n = []) by (intros n; apply paginate_no_data; by rewrite Hfail).
  assert (E2 : paginate no_jobs (rq_max_jobs req) = []) by (by apply paginate_no_data).
  split; [exact E0|]. split; [|split].
  - unfold search_jobs, fetch_jobs. by rewrite E0, E2.
  - intros Hr. unfold search_jobs, fetch_jobs. by rewrite Hr, E0.
  - intros w1 Hr Hget. unfold search_jobs, fetch_jobs. by rewrite Hr, Hget, E0.
Qed.

(** Witness of C1: a fresh process, every page failing, once with a
    refresh and once with a cache lookup that misses. *)
Lemma total_failure_is_empty_success_witness :
  paginate all_fail 25 = [] ∧
  search_jobs all_fail (sample_request true 25) None fresh_world
    = search_jobs no_jobs (sample_request true 25) None fresh_world ∧
  search_jobs all_fail (sample_request true 25) None fresh_world
    = (JSONResponse [] "No jobs found", fresh_world) ∧
  search_jobs all_fail (sample_request false 25) None fresh_world
    = (JSONResponse [] "No jobs found", mk_world true (empty_backend 0)).
Proof.
  destruct (total_failure_is_empty_success all_fail (sample_request true 25) None fresh_world)
    as (Hp & H1 & H2 & _); [intros p; reflexivity|].
  destruct (total_failure_is_empty_success all_fail (sample_request false 25) None fresh_world)
    as (_ & _ & _ & H3); [intros p; reflexivity|].
  split; [apply Hp|]. split; [exact H1|]. split; [apply H2; reflexivity|].
  apply H3; [reflexivity|vm_compute; reflexivity].
Defined.

(** C1 counterexample: every page fails and nothing was accumulated, yet
    the handler returns the empty success response, not a search failure. *)
Lemma total_failure_counterexample :
  search_jobs all_fail (sample_request true 25) None fresh_world
    = (JSONResponse [] "No jobs found", fresh_world).
Proof. vm_compute. reflexivity. Qed.

(** ** C2: cache hits are truncated before the exclusion filter *)

(** A world whose cache holds [engineer_job; analyst_job] for
    [sample_key], fresh at time 0. *)
Definition cached_two_world : world :=
  mk_world true (mk_backend None None None
    {[ sample_key := mk_entry [engineer_job; analyst_job] 7200000 ]} 0).

(** C2 (as amended).  On a cache hit ([refresh] false), [fetch_jobs]
    returns the cached sequence sliced to [max_jobs], and the handler
    applies the exclusion filter to that slice only: the user receives the
    non-excluded listings among the first [max_jobs] cached ones. *)
Theorem cache_hit_truncates_then_filters (up : upstream) (req : search_request)
    (u : option user_rows) (w w1 : world) (cached : list job) :
  rq_refresh req = false →
  _get_cached_jobs (_get_cache_key (rq_query req) "" (rq_date_posted req) (rq_sort_by req)) w
    = (Ret (Some cached), w1) →
  search_jobs up req u w =
    (match Py.slice_to cached (rq_max_jobs req) with
     | [] => JSONResponse [] "No jobs found"
     | raw => JSONResponse (map format_job (filter (not_excluded u) raw))
                (search_message (length (filter (not_excluded u) raw))
                   (length (filter (fun j => job_key j ∈ excluded_jobs u) raw)))
     end, w1).
Proof.
  intros Hr Hget. unfold search_jobs, fetch_jobs. rewrite Hr, Hget.
  destruct (Py.slice_to cached (rq_max_jobs req)) as [|j rest] eqn:Hs; [done|].
  rewrite transform_loop_spec. cbn [app Nat.add]. by rewrite length_map.
Qed.

Lemma cache_hit_truncates_then_filters_witness :
  search_jobs all_fail (sample_request false 1) (Some engineer_saver) cached_two_world
    = (JSONResponse [] "Found 0 jobs (1 already saved/skipped)", cached_two_world).
Proof.
  rewrite (cache_hit_truncates_then_filters all_fail (sample_request false 1)
             (Some engineer_saver) cached_two_world cached_two_world
             [engineer_job; analyst_job] eq_refl eq_refl).
  vm_compute. reflexivity.
Defined.

(** C2 counterexample: the cache holds one listing the user has not saved
    (the analyst job), [max_jobs] is 1, yet the user receives no listing. *)
Lemma cache_hit_filter_counterexample :
  search_jobs all_fail (sample_request false 1) (Some engineer_saver) cached_two_world
    = (JSONResponse [] "Found 0 jobs (1 already saved/skipped)", cached_two_world) ∧
  length (filter (not_excluded (Some engineer_saver)) [engineer_job; analyst_job]) = 1%nat.
Proof. split; vm_compute; reflexivity. Qed.

(** ** C3: cache-backend failures *)

(** A process that has not connected yet, against a Redis server whose
    connection attempt times out. *)
Definition timeout_world : world :=
  mk_world false (mk_backend (Some RTimeoutError) (Some RTimeoutError)
                    (Some RTimeoutError) ∅ 0).

(** C3 (failing input).  [_get_redis] catches only [redis.ConnectionError]
    and is called outside the [try] of [_get_cached_jobs]: a connection
    timeout escapes the cache lookup, and the search answers HTTP 500. *)
Theorem cache_timeout_escapes :
  fst (_get_cached_jobs sample_key timeout_world) = Exc RTimeoutError ∧
  fst (search_jobs no_jobs (sample_request false 25) None timeout_world)
    = HTTPError 500 "Timeout connecting to server".
Proof. split; vm_compute; reflexivity. Qed.

(** ** C4: first-seen deduplication *)

(** C4.  For every upstream, the pagination loop consumes some [k] pages
    (at most [max_pages], each carrying listings); before truncation its
    accumulation is the first-seen deduplication of their listings in
    order of first appearance, which holds only listings with a usable
    identifier, no identifier twice, and as many listings as there are
    distinct identifiers; the result is that accumulation sliced to
    [max_jobs].  Only the deduplicated count decides the pages read: each
    of the [k] pages was requested while the first-seen count of the
    pages before it was below [max_jobs], and the loop stopped because
    that count reached [max_jobs], or page [k+1] carries no listings, or
    [k] is [max_pages].  Records without an identifier and repeated
    identifiers are thus not counted toward the target. *)
Theorem paginate_dedup_first_seen (up : upstream) (max_jobs : Z) :
  ∃ k, (k <= max_pages)%nat ∧ (∀ i, (1 <= i <= k)%nat → has_data (up i) = true) ∧
    paginate up max_jobs = Py.slice_to (first_seen [] (pages_data up 1 k)) max_jobs ∧
    (∀ j, j ∈ first_seen [] (pages_data up 1 k) → is_Some (usable_id j)) ∧
    NoDup (ids_of (first_seen [] (pages_data up 1 k))) ∧
    length (first_seen [] (pages_data up 1 k))
      = length (remove_dups (ids_of (pages_data up 1 k))) ∧
    (∀ k', (k' < k)%nat →
       Z.of_nat (length (first_seen [] (pages_data up 1 k'))) < max_jobs) ∧
    (max_jobs <= Z.of_nat (length (first_seen [] (pages_data up 1 k)))
     ∨ ((S k <= max_pages)%nat → has_data (up (S k)) = false)).
Proof.
  destruct (paginate_spec_full up max_jobs) as (k & Hk & Heq & Hwhy & Hmore).
  exists k. split; [by apply (length_le_max_pages up)|].
  split; [intros i Hi; by apply Hk|]. split; [exact Heq|].
  split; [|split; [apply first_seen_ids_NoDup|split; [apply first_seen_length|]]].
  - intros j Hj. destruct (first_seen_usable _ _ _ Hj) as (i & -> & _). by eexists.
  - split; [exact Hmore|exact Hwhy].
Qed.

(** Three pages, the second repeating two identifiers of the first. *)
Definition three_pages : upstream := fun p =>
  match p with
  | 1%nat => PageOk (Some (numbered_jobs 1 4))
  | 2%nat => PageOk (Some (numbered_jobs 3 4))
  | 3%nat => PageOk (Some (numbered_jobs 7 2))
  | _ => PageOk (Some [])
  end.

Example three_pages_dedup :
  map usable_id (paginate three_pages 25)
  = map (fun i => Some (digits i)) [1; 2; 3; 4; 5; 6; 7; 8]%nat.
Proof. vm_compute. reflexivity. Qed.

(** ** C5: time to live *)

(** C5 (as amended).  An entry written by [_set_cache] at server time [T]
    (all of [SETEX] succeeding) is returned by a later [_get_cached_jobs]
    at server time [t] (with [GET] succeeding) iff [t <= T + 2 h]: Redis
    expires a key only once its expiry time is strictly passed.  The TTL
    is the one constant [CACHE_TTL_SECONDS] = 7200 s. *)
Theorem cache_entry_lifetime (key : string) (v : list job) (w : world)
    (p s : option redis_exn) (t : Z) :
  b_set (w_backend w) = None →
  (w_client w = true ∨ b_ping (w_backend w) = None) →
  CACHE_TTL_SECONDS = 120 * 60 ∧
  fst (_get_cached_jobs key
         (mk_world (w_client (snd (_set_cache key v w)))
            (mk_backend p None s (b_store (w_backend (snd (_set_cache key v w)))) t)))
  = if t <=? b_now (w_backend w) + CACHE_TTL_SECONDS * 1000
    then Ret (Some v) else Ret None.
Proof.
  intros Hset Hconn. split; [reflexivity|].
  destruct w as [c [bp bg bs st now]]; simpl in *.
  assert (Hs : snd (_set_cache key v (mk_world c (mk_backend bp bg bs st now)))
               = mk_world true (mk_backend bp bg bs
                   (<[key := mk_entry v (now + CACHE_TTL_SECONDS * 1000)]> st) now)).
  { unfold _set_cache, _get_redis. simpl. subst bs.
    destruct c; [done|]. destruct Hconn as [Hc | ->]; [discriminate|done]. }
  rewrite Hs. unfold _get_cached_jobs, _get_redis, redis_get. simpl.
  rewrite lookup_insert_eq. simpl.
  rewrite Z.gtb_ltb.
  destruct (Z.ltb_spec (now + CACHE_TTL_SECONDS * 1000) t);
    destruct (Z.leb_spec t (now + CACHE_TTL_SECONDS * 1000)); try done; lia.
Qed.

(** Witness of C5: stored at time 0, looked up at 119 and at 121 minutes. *)
Lemma cache_entry_lifetime_witness :
  fst (_get_cached_jobs sample_key
         (mk_world (w_client (snd (_set_cache sample_key [engineer_job] fresh_world)))
            (mk_backend None None None
               (b_store (w_backend (snd (_set_cache sample_key [engineer_job] fresh_world))))
               (119 * 60 * 1000))))
    = Ret (Some [engineer_job]) ∧
  fst (_get_cached_jobs sample_key
         (mk_world (w_client (snd (_set_cache sample_key [engineer_job] fresh_world)))
            (mk_backend None None None
               (b_store (w_backend (snd (_set_cache sample_key [engineer_job] fresh_world))))
               (121 * 60 * 1000))))
    = Ret None.
Proof.
  split.
  - rewrite (proj2 (cache_entry_lifetime sample_key [engineer_job] fresh_world None None
                      (119 * 60 * 1000) eq_refl (or_intror eq_refl))).
    reflexivity.
  - rewrite (proj2 (cache_entry_lifetime sample_key [engineer_job] fresh_world None None
                      (121 * 60 * 1000) eq_refl (or_intror eq_refl))).
    reflexivity.
Defined.

(** C5 counterexample: at exactly [T + 120] minutes the entry is still
    returned, where the claim has a cache miss. *)
Lemma cache_ttl_boundary_counterexample :
  fst (_get_cached_jobs sample_key
         (mk_world (w_client (snd (_set_cache sample_key [engineer_job] fresh_world)))
            (mk_backend None None None
               (b_store (w_backend (snd (_set_cache sample_key [engineer_job] fresh_world))))
               (0 + 120 * 60 * 1000))))
    = Ret (Some [engineer_job]).
Proof. vm_compute. reflexivity. Qed.

(** ** C6: cache-key normalisation *)

(** C6.  [_get_cache_key] depends on the query text and the location only
    through their lower-cased, stripped forms; its other inputs are the
    recency filter and the sort order, so [max_jobs] and [refresh] play no
    part in the key. *)
Theorem cache_key_normalized (q1 l1 q2 l2 date_posted sort_by : string) :
  Py.strip (Py.lower q1) = Py.strip (Py.lower q2) →
  Py.strip (Py.lower l1) = Py.strip (Py.lower l2) →
  _get_cache_key q1 l1 date_posted sort_by = _get_cache_key q2 l2 date_posted sort_by.
Proof. intros Hq Hl. unfold _get_cache_key. by rewrite Hq, Hl. Qed.

Lemma cache_key_normalized_witness :
  _get_cache_key " Python Dev " "NYC" "week" "date"
  = _get_cache_key "python dev" "nyc" "week" "date".
Proof. apply cache_key_normalized; reflexivity. Defined.

(** ** C7: truncation to the target count *)

(** C7.  If the first [k <= max_pages] pages all carry listings and hold
    at least [N] distinct usable identifiers, the loop returns exactly [N]
    listings: the first [N] in order of first appearance. *)
Theorem paginate_target_count (up : upstream) (n : Z) (k : nat) :
  0 <= n → (k <= max_pages)%nat →
  (∀ i, (1 <= i <= k)%nat → has_data (up i) = true) →
  n <= Z.of_nat (length (first_seen [] (pages_data up 1 k))) →
  paginate up n = take (Z.to_nat n) (first_seen [] (pages_data up 1 k)) ∧
  length (paginate up n) = Z.to_nat n.
Proof.
  intros Hn Hkmax Hk Henough.
  assert (Heq : paginate up n = take (Z.to_nat n) (first_seen [] (pages_data up 1 k))).
  { destruct (paginate_spec up n) as (k' & Hk' & Heq & Hwhy).
    rewrite Heq, slice_to_take by done.
    destruct (decide (k <= k')%nat) as [Hle|Hlt].
    - destruct (first_seen_pages_prefix up k (k' - k)) as [rest Hrest].
      replace (k + (k' - k))%nat with k' in Hrest by lia.
      rewrite Hrest, take_app_le by lia. done.
    - destruct Hwhy as [Hreach|Hnodata].
      + destruct (first_seen_pages_prefix up k' (k - k')) as [rest Hrest].
        replace (k' + (k - k'))%nat with k in Hrest by lia.
        rewrite Hrest, take_app_le by lia. done.
      + rewrite Hk in Hnodata by lia. discriminate Hnodata. lia. }
  split; [exact Heq|]. rewrite Heq, length_take_le by lia. done.
Qed.

(** Two pages of 20 and 17 fresh listings: 37 available. *)
Definition thirty_seven : upstream := fun p =>
  match p with
  | 1%nat => PageOk (Some (numbered_jobs 0 20))
  | 2%nat => PageOk (Some (numbered_jobs 20 17))
  | _ => PageOk (Some [])
  end.

Lemma paginate_target_count_witness :
  length (first_seen [] (pages_data thirty_seven 1 2)) = 37%nat ∧
  paginate thirty_seven 10 = take 10 (first_seen [] (pages_data thirty_seven 1 2)) ∧
  length (paginate thirty_seven 10) = 10%nat.
Proof.
  split; [vm_compute; reflexivity|].
  apply (paginate_target_count thirty_seven 10 2).
  - lia.
  - unfold max_pages. lia.
  - intros i Hi. destruct i as [|[|[|i]]]; try lia; reflexivity.
  - vm_compute. discriminate.
Defined.

(** ** C8: partial failure *)

(** C8.  If pages [1..j] carry listings, the count stays below [N], and
    the request for page [j+1] fails, the loop returns exactly the
    deduplicated listings of pages [1..j]. *)
Theorem paginate_partial_failure (up : upstream) (n : Z) (j : nat) :
  (S j <= max_pages)%nat →
  (∀ i, (1 <= i <= j)%nat → has_data (up i) = true) →
  up (S j) = PageError →
  Z.of_nat (length (first_seen [] (pages_data up 1 j))) < n →
  paginate up n = first_seen [] (pages_data up 1 j).
Proof.
  intros Hjmax Hj Herr Hlt.
  destruct (paginate_spec up n) as (k & Hk & Heq & Hwhy).
  assert (k = j) as ->.
  { destruct (decide (j < k)%nat) as [Hgt|Hngt].
    - destruct (Hk (S j) ltac:(lia)) as [_ Hd]. by rewrite Herr in Hd.
    - destruct (decide (k = j)) as [|Hne]; [done|].
      destruct Hwhy as [Hreach|Hnodata].
      + destruct (first_seen_pages_prefix up k (j - k)) as [rest Hrest].
        replace (k + (j - k))%nat with j in Hrest by lia.
        rewrite Hrest, length_app in Hlt. lia.
      + rewrite Hj in Hnodata by lia. discriminate Hnodata. lia. }
  rewrite Heq. by apply slice_to_small.
Qed.

(** Page 1 yields 5 listings, the request for page 2 fails. *)
Definition five_then_error : upstream := fun p =>
  match p with
  | 1%nat => PageOk (Some (numbered_jobs 1 5))
  | _ => PageError
  end.

Lemma paginate_partial_failure_witness :
  paginate five_then_error 25 = numbered_jobs 1 5.
Proof.
  rewrite (paginate_partial_failure five_then_error 25 1).
  - vm_compute. reflexivity.
  - unfold max_pages. lia.
  - intros i Hi. assert (i = 1%nat) as -> by lia. reflexivity.
  - reflexivity.
  - vm_compute. reflexivity.
Defined.

(** ** C9: exclusion filtering *)

(** C9.  For an authenticated search whose fetch returned listings, the
    handler drops exactly the listings whose lower-cased (title, company,
    location) triple is among the user's saved or skipped triples, keeps
    the others in their order, and its message counts the dropped ones. *)
Theorem search_excludes_saved_and_skipped (up : upstream) (req : search_request)
    (ur : user_rows) (w w' : world) (raw : list job) :
  fetch_jobs up (rq_query req) "" (rq_max_jobs req) (rq_date_posted req)
    (rq_sort_by req) (rq_refresh req) w = (Ret raw, w') →
  raw ≠ [] →
  search_jobs up req (Some ur) w =
    (JSONResponse (map format_job (filter (not_excluded (Some ur)) raw))
       (search_message (length (filter (not_excluded (Some ur)) raw))
          (length (filter (fun j => job_key j ∈ excluded_jobs (Some ur)) raw))), w').
Proof.
  intros Hf Hne. unfold search_jobs. rewrite Hf.
  destruct raw as [|j rest]; [done|].
  rewrite transform_loop_spec. cbn [app Nat.add]. by rewrite length_map.
Qed.

(** The upstream of the example: the engineer and the analyst listings. *)
Definition engineer_and_analyst : upstream := fun p =>
  match p with
  | 1%nat => PageOk (Some [engineer_job; analyst_job])
  | _ => PageOk (Some [])
  end.

Lemma search_excludes_saved_and_skipped_witness :
  fst (search_jobs engineer_and_analyst (sample_request true 25) (Some engineer_saver)
         fresh_world)
  = JSONResponse [format_job analyst_job] "Found 1 jobs (1 already saved/skipped)".
Proof.
  rewrite (search_excludes_saved_and_skipped engineer_and_analyst (sample_request true 25)
             engineer_saver fresh_world
             (snd (fetch_jobs engineer_and_analyst "python developer" "" 25 "week" "date"
                     true fresh_world))
             [engineer_job; analyst_job]).
  - vm_compute. reflexivity.
  - vm_compute. reflexivity.
  - discriminate.
Defined.

(** ** C10: empty fetches are never cached *)

(** C10.  A call of [fetch_jobs] whose pagination accumulates nothing
    leaves the key space untouched (an older entry for the key survives,
    an absent key stays absent); and [fetch_jobs] preserves the invariant
    that every stored entry holds a non-empty listing sequence. *)
Theorem empty_fetch_never_cached (up : upstream) (query location : string) (max_jobs : Z)
    (date_posted sort_by : string) (refresh : bool) (w : world) :
  (paginate up max_jobs = [] →
   b_store (w_backend (snd (fetch_jobs up query location max_jobs date_posted sort_by refresh w)))
   = b_store (w_backend w)) ∧
  ((∀ k e, b_store (w_backend w) !! k = Some e → e_value e ≠ []) →
   ∀ k e, b_store (w_backend (snd (fetch_jobs up query location max_jobs date_posted sort_by refresh w)))
            !! k = Some e → e_value e ≠ []).
Proof.
  set (key := _get_cache_key query location date_posted sort_by).
  assert (Hget : w_backend (snd (if refresh then (Ret None, w) else _get_cached_jobs key w))
                 = w_backend w)
    by (destruct refresh; [done|apply get_cached_jobs_backend]).
  unfold fetch_jobs. fold key.
  destruct (if refresh then (Ret None, w) else _get_cached_jobs key w) as [o w1].
  simpl in Hget. split.
  - intros Hp. rewrite Hp. by destruct o as [[cached|]|e]; simpl; rewrite Hget.
  - intros Hinv k e. destruct o as [[cached|]|e']; simpl; rewrite ?Hget; try apply Hinv.
    destruct (paginate up max_jobs) as [|x xs] eqn:Hp; simpl; [rewrite Hget; apply Hinv|].
    pose proof (set_cache_store key (x :: xs) w1) as Hs'.
    destruct (_set_cache key (x :: xs) w1) as [o2 w2]. simpl in Hs'.
    assert (Hw2 : b_store (w_backend (snd (match o2 with
                                            | Ret _ => (Ret (x :: xs), w2)
                                            | Exc e0 => (Exc e0, w2) end)))
                  = b_store (w_backend w2)) by (by destruct o2).
    rewrite Hw2. rewrite Hget in Hs'.
    destruct Hs' as [Hs|Hs]; rewrite Hs; [apply Hinv|].
    destruct (decide (k = key)) as [->|Hk];
      [rewrite lookup_insert_eq; intros [= <-]; simpl; discriminate
      |rewrite lookup_insert_ne by congruence; apply Hinv].
Qed.

(** Witness of C10: an all-failing refresh over a cached entry keeps it. *)
Lemma empty_fetch_never_cached_witness :
  b_store (w_backend (snd (fetch_jobs all_fail "python developer" "" 25 "week" "date" true
                             cached_two_world)))
  = b_store (w_backend cached_two_world) ∧
  (∀ k e, b_store (w_backend (snd (fetch_jobs all_fail "python developer" "" 25 "week" "date"
                                     true cached_two_world))) !! k = Some e → e_value e ≠ []).
Proof.
  destruct (empty_fetch_never_cached all_fail "python developer" "" 25 "week" "date" true
              cached_two_world) as [H1 H2].
  split.
  - apply H1. vm_compute. reflexivity.
  - apply H2. intros k e Hk. unfold cached_two_world in Hk. simpl in Hk.
    destruct (decide (k = sample_key)) as [->|Hne].
    + rewrite lookup_singleton_eq in Hk. injection Hk as <-. discriminate.
    + rewrite lookup_singleton_ne in Hk by congruence. discriminate.
Defined.

(* ================================================================== *)
(** * Further properties of the cache and search layer *)

Lemma get_redis_sets_client (w : world) : w_client (snd (_get_redis w)) = true.
Proof.
  unfold _get_redis. destruct (w_client w) eqn:Hc; [done|].
  destruct (b_ping (w_backend w)) as [e|]; [destruct (is_connection_error e)|]; done.
Qed.

Lemma get_redis_connected (w : world) : w_client w = true → _get_redis w = (Ret true, w).
Proof. intros Hc. unfold _get_redis. by rewrite Hc. Qed.

(** [_get_redis] assigns the module global before [ping], so after the
    first cache access of the process (whatever its outcome) every cache
    get and set returns normally, whatever the Redis server does. *)
Theorem cache_access_total_after_first (key : string) (v : list job) (w : world) :
  w_client (snd (_get_cached_jobs key w)) = true ∧
  w_client (snd (_set_cache key v w)) = true ∧
  (w_client w = true →
   (∃ o, fst (_get_cached_jobs key w) = Ret o) ∧ fst (_set_cache key v w) = Ret tt).
Proof.
  pose proof (get_redis_sets_client w) as Hs.
  split; [|split].
  - unfold _get_cached_jobs. destruct (_get_redis w) as [[[|]|e] w']; simpl in *;
      try destruct (b_get (w_backend w')); done.
  - unfold _set_cache. destruct (_get_redis w) as [[[|]|e] w']; simpl in *;
      try destruct (b_set (w_backend w')); done.
  - intros Hc. unfold _get_cached_jobs, _set_cache. rewrite (get_redis_connected w Hc).
    split; [destruct (b_get (w_backend w)); by eexists|].
    by destruct (b_set (w_backend w)).
Qed.

Lemma cache_access_total_after_first_witness :
  (∃ o, fst (_get_cached_jobs sample_key (snd (_get_cached_jobs sample_key timeout_world)))
        = Ret o) ∧
  fst (_set_cache sample_key [engineer_job] (snd (_get_cached_jobs sample_key timeout_world)))
  = Ret tt.
Proof.
  apply (cache_access_total_after_first sample_key [engineer_job]
           (snd (_get_cached_jobs sample_key timeout_world))).
  reflexivity.
Defined.

(** With [refresh], [fetch_jobs] never reads the cache: against a
    connected client it returns the freshly paginated listings and, when
    there are any and [SETEX] succeeds, overwrites the entry for the key
    with them and a fresh expiry. *)
Theorem refresh_bypasses_cache (up : upstream) (query location : string) (n : Z)
    (date_posted sort_by : string) (w : world) :
  w_client w = true →
  fst (fetch_jobs up query location n date_posted sort_by true w) = Ret (paginate up n) ∧
  (b_set (w_backend w) = None → paginate up n ≠ [] →
   b_store (w_backend (snd (fetch_jobs up query location n date_posted sort_by true w)))
     !! _get_cache_key query location date_posted sort_by
   = Some (mk_entry (paginate up n) (b_now (w_backend w) + CACHE_TTL_SECONDS * 1000))).
Proof.
  intros Hc. unfold fetch_jobs, _set_cache. rewrite (get_redis_connected w Hc).
  split.
  - destruct (paginate up n); [done|]. by destruct (b_set (w_backend w)).
  - intros Hset Hne. rewrite Hset.
    destruct (paginate up n) as [|x xs]; [done|]. simpl. by rewrite lookup_insert_eq.
Qed.

Lemma refresh_bypasses_cache_witness :
  fst (fetch_jobs engineer_and_analyst "python developer" "" 25 "week" "date" true
         cached_two_world) = Ret [engineer_job; analyst_job] ∧
  b_store (w_backend (snd (fetch_jobs engineer_and_analyst "python developer" "" 25
                             "week" "date" true cached_two_world))) !! sample_key
  = Some (mk_entry [engineer_job; analyst_job] 7200000).
Proof.
  destruct (refresh_bypasses_cache engineer_and_analyst "python developer" "" 25 "week" "date"
              cached_two_world eq_refl) as [H1 H2].
  split.
  - rewrite H1. vm_compute. reflexivity.
  - unfold sample_key. rewrite H2 by (vm_compute; congruence). vm_compute. reflexivity.
Defined.

(** On a cache hit [fetch_jobs] requests no page: its result and the
    resulting state are the same for every upstream. *)
Theorem cache_hit_skips_upstream (up up' : upstream) (query location : string) (n : Z)
    (date_posted sort_by : string) (w w1 : world) (cached : list job) :
  _get_cached_jobs (_get_cache_key query location date_posted sort_by) w
    = (Ret (Some cached), w1) →
  fetch_jobs up query location n date_posted sort_by false w = (Ret (Py.slice_to cached n), w1) ∧
  fetch_jobs up' query location n date_posted sort_by false w
  = fetch_jobs up query location n date_posted sort_by false w.
Proof. intros Hget. unfold fetch_jobs. by rewrite Hget. Qed.

Lemma cache_hit_skips_upstream_witness :
  fetch_jobs all_fail "python developer" "" 1 "week" "date" false cached_two_world
  = (Ret [engineer_job], cached_two_world) ∧
  fetch_jobs engineer_and_analyst "python developer" "" 1 "week" "date" false cached_two_world
  = fetch_jobs all_fail "python developer" "" 1 "week" "date" false cached_two_world.
Proof.
  apply (cache_hit_skips_upstream all_fail engineer_and_analyst "python developer" "" 1
           "week" "date" cached_two_world cached_two_world [engineer_job; analyst_job]).
  reflexivity.
Defined.

Lemma paginate_bounded (up : upstream) (n : Z) :
  0 <= n → (length (paginate up n) <= Z.to_nat n)%nat.
Proof.
  intros Hn. destruct (paginate_spec up n) as (k & _ & Heq & _).
  rewrite Heq, slice_to_take, length_take by done. lia.
Qed.

Lemma slice_to_bounded {A} (l : list A) (n : Z) :
  0 <= n → (length (Py.slice_to l n) <= Z.to_nat n)%nat.
Proof. intros Hn. rewrite slice_to_take, length_take by done. lia. Qed.

(** With a non-negative [max_jobs], neither [fetch_jobs] (cache hit or
    miss) nor the search handler ever returns more than [max_jobs]
    listings. *)
Theorem fetch_and_search_bounded (up : upstream) (req : search_request)
    (u : option user_rows) (w : world) :
  0 <= rq_max_jobs req →
  (∀ raw, fst (fetch_jobs up (rq_query req) "" (rq_max_jobs req) (rq_date_posted req)
                 (rq_sort_by req) (rq_refresh req) w) = Ret raw →
          (length raw <= Z.to_nat (rq_max_jobs req))%nat) ∧
  (∀ jobs msg, fst (search_jobs up req u w) = JSONResponse jobs msg →
               (length jobs <= Z.to_nat (rq_max_jobs req))%nat).
Proof.
  intros Hn.
  assert (Hf : ∀ raw, fst (fetch_jobs up (rq_query req) "" (rq_max_jobs req) (rq_date_posted req)
                 (rq_sort_by req) (rq_refresh req) w) = Ret raw →
          (length raw <= Z.to_nat (rq_max_jobs req))%nat).
  { intros raw. unfold fetch_jobs.
    destruct (if rq_refresh req then _ else _) as [[[cached|]|e] w1]; simpl.
    - intros [= <-]. by apply slice_to_bounded.
    - pose proof (paginate_bounded up (rq_max_jobs req) Hn) as Hb.
      destruct (paginate up (rq_max_jobs req)) as [|x xs] eqn:Hp.
      + intros [= <-]. simpl. lia.
      + destruct (_set_cache _ (x :: xs) w1) as [[[]|e'] w2]; simpl; [intros [= <-]; done|done].
    - done. }
  split; [exact Hf|].
  intros jobs msg. unfold search_jobs.
  destruct (fetch_jobs up (rq_query req) "" (rq_max_jobs req) (rq_date_posted req)
              (rq_sort_by req) (rq_refresh req) w) as [[raw|e] w'] eqn:Hfe; simpl; [|done].
  specialize (Hf raw eq_refl).
  destruct raw as [|x xs]; [intros [= <- _]; simpl; lia|].
  rewrite transform_loop_spec. simpl. intros [= <- _].
  rewrite length_map. pose proof (length_filter (not_excluded u) (x :: xs)). simpl in *. lia.
Qed.

Lemma fetch_and_search_bounded_witness :
  match fst (search_jobs thirty_seven (sample_request true 10) None fresh_world) with
  | JSONResponse jobs _ => (length jobs <= 10)%nat
  | HTTPError _ _ => True
  end.
Proof.
  destruct (fetch_and_search_bounded thirty_seven (sample_request true 10) None fresh_world)
    as [_ H]; [simpl; lia|].
  remember (fst (search_jobs thirty_seven (sample_request true 10) None fresh_world))
    as resp eqn:E.
  destruct resp as [jobs msg|]; [exact (H jobs msg eq_refl)|exact I].
Defined.

(** A non-positive [max_jobs] stops the loop before any page request: a
    cache miss yields no listing (a refresh search answers "No jobs
    found"), while a cache hit slices with Python's negative bound and
    returns the cached listings minus the last [-max_jobs] of them. *)
Theorem nonpositive_max_jobs (up : upstream) (req : search_request)
    (u : option user_rows) (w w1 : world) (cached : list job) :
  rq_max_jobs req <= 0 →
  paginate up (rq_max_jobs req) = [] ∧
  (rq_refresh req = true → fst (search_jobs up req u w) = JSONResponse [] "No jobs found") ∧
  (rq_max_jobs req < 0 → rq_refresh req = false →
   _get_cached_jobs (_get_cache_key (rq_query req) "" (rq_date_posted req) (rq_sort_by req)) w
     = (Ret (Some cached), w1) →
   fst (fetch_jobs up (rq_query req) "" (rq_max_jobs req) (rq_date_posted req)
          (rq_sort_by req) false w)
   = Ret (take (length cached - Z.to_nat (- rq_max_jobs req)) cached)).
Proof.
  intros Hn.
  assert (Hp : paginate up (rq_max_jobs req) = []).
  { unfold paginate, max_pages. simpl.
    destruct (Z.ltb_spec (Z.of_nat 0) (rq_max_jobs req)); [lia|done]. }
  split; [exact Hp|split].
  - intros Hr. unfold search_jobs, fetch_jobs. by rewrite Hr, Hp.
  - intros Hneg Hr Hget. unfold fetch_jobs. rewrite Hget. simpl. unfold Py.slice_to.
    destruct (Z.leb_spec 0 (rq_max_jobs req)); [lia|done].
Qed.

Lemma nonpositive_max_jobs_witness :
  fst (fetch_jobs all_fail "python developer" "" (-1) "week" "date" false cached_two_world)
  = Ret [engineer_job].
Proof.
  destruct (nonpositive_max_jobs all_fail (sample_request false (-1)) None cached_two_world
              cached_two_world [engineer_job; analyst_job] ltac:(simpl; lia))
    as (_ & _ & H).
  unfold sample_request in H; cbn [rq_query rq_max_jobs rq_date_posted rq_sort_by rq_refresh] in H.
  rewrite (H ltac:(lia) eq_refl eq_refl). reflexivity.
Defined.

(* ------------------------------------------------------------------ *)
(** ** Pages the loop reads *)

Lemma paginate_loop_agree (up up' : upstream) (mj : Z) (k : nat) :
  (∀ i, (1 <= i <= k)%nat → up' i = up i) →
  ((max_pages <= k)%nat ∨ has_data (up k) = false) →
  ∀ fuel page acc seen, (1 <= page)%nat → ((page <= k)%nat ∨ (max_pages < page)%nat) →
  paginate_loop fuel up' mj page acc seen = paginate_loop fuel up mj page acc seen.
Proof.
  intros Hagree Hstop fuel.
  induction fuel as [|fuel IH]; intros page acc seen H1 Hp; [reflexivity|].
  cbn [paginate_loop].
  destruct (Z.of_nat (length acc) <? mj); cbn [andb]; [|reflexivity].
  destruct (Nat.leb_spec page max_pages) as [Hle|Hgt]; [|reflexivity].
  destruct Hp as [Hp|Hp]; [|lia].
  rewrite (Hagree page) by lia.
  destruct (up page) as [|[[|x xs]|]] eqn:Hup; try reflexivity.
  destruct (add_page (x :: xs) acc seen) as [acc' seen'].
  destruct (mj <=? Z.of_nat (length acc')); [reflexivity|].
  apply IH; [lia|].
  destruct (Nat.eq_dec page k) as [->|Hne]; [|lia].
  destruct Hstop as [Hs|Hs]; [lia|]. rewrite Hup in Hs. discriminate.
Qed.

(** [fetch_jobs] reads no page past the first one without listings and
    none past page [max_pages]: two upstreams that agree on pages 1..k,
    where page k is empty or failing or k >= 3, give the same listings. *)
Theorem paginate_reads_only_reachable_pages (up up' : upstream) (max_jobs : Z) (k : nat) :
  (1 <= k)%nat →
  (∀ i, (1 <= i <= k)%nat → up' i = up i) →
  ((max_pages <= k)%nat ∨ has_data (up k) = false) →
  paginate up' max_jobs = paginate up max_jobs.
Proof.
  intros Hk Hag Hs. unfold paginate.
  apply (paginate_loop_agree up up' max_jobs k); [done|done|lia|lia].
Qed.

Lemma paginate_reads_only_reachable_pages_witness :
  paginate (λ p, match p with 1%nat => PageOk (Some []) | _ => PageError end) 10
  = paginate no_jobs 10.
Proof.
  apply (paginate_reads_only_reachable_pages no_jobs _ 10 1); [lia| |right; reflexivity].
  intros i Hi. assert (i = 1%nat) as -> by lia. reflexivity.
Defined.

(* ------------------------------------------------------------------ *)
(** ** What [search_jobs] shows *)

Lemma filter_not_excluded_None (l : list job) : filter (not_excluded None) l = l.
Proof.
  induction l as [|j l IH]; [done|].
  rewrite filter_cons_True; [by rewrite IH|]. unfold not_excluded. cbn. apply not_elem_of_nil.
Qed.

Lemma filter_excluded_None (l : list job) :
  filter (λ j, job_key j ∈ excluded_jobs None) l = [].
Proof.
  induction l as [|j l IH]; [done|].
  rewrite filter_cons_False; [done|]. cbn. apply not_elem_of_nil.
Qed.

Lemma shown_plus_filtered (u : option user_rows) (l : list job) :
  (length (filter (not_excluded u) l)
   + length (filter (λ j, job_key j ∈ excluded_jobs u) l))%nat = length l.
Proof.
  induction l as [|j l IH]; [done|].
  destruct (decide (job_key j ∈ excluded_jobs u)) as [Hin|Hin].
  - rewrite filter_cons_False, filter_cons_True by (unfold not_excluded; tauto).
    cbn [length]. lia.
  - rewrite filter_cons_True, filter_cons_False by (unfold not_excluded; tauto).
    cbn [length]. lia.
Qed.

(** An anonymous search filters nothing: every listing [fetch_jobs]
    returned is shown, in order, and the message is "Found n jobs" with n
    the number of listings fetched. *)
Theorem anonymous_search_shows_all (up : upstream) (req : search_request) (w w' : world)
    (raw : list job) :
  fetch_jobs up (rq_query req) "" (rq_max_jobs req) (rq_date_posted req) (rq_sort_by req)
    (rq_refresh req) w = (Ret raw, w') →
  raw ≠ [] →
  search_jobs up req None w
  = (JSONResponse (map format_job raw) ("Found " ++ digits (length raw) ++ " jobs")%string, w').
Proof.
  intros Hf Hne. unfold search_jobs. rewrite Hf.
  destruct raw as [|j raw]; [done|].
  cbv beta iota.
  rewrite transform_loop_spec, filter_not_excluded_None, filter_excluded_None.
  cbn [app]. unfold search_message. rewrite length_map. reflexivity.
Qed.

Lemma anonymous_search_shows_all_witness :
  search_jobs engineer_and_analyst (sample_request true 10) None fresh_world
  = (JSONResponse (map format_job [engineer_job; analyst_job]) "Found 2 jobs",
     snd (fetch_jobs engineer_and_analyst "python developer" "" 10 "week" "date" true
            fresh_world)).
Proof.
  apply (anonymous_search_shows_all engineer_and_analyst (sample_request true 10) fresh_world
           _ [engineer_job; analyst_job]); [reflexivity|discriminate].
Defined.

(** For any user, the listings shown are a sub-sequence of those fetched
    and the "already saved/skipped" count of the message is exactly the
    number of fetched listings that were not shown. *)
Theorem search_counts_every_listing (up : upstream) (req : search_request)
    (u : option user_rows) (w w' : world) (raw : list job) :
  fetch_jobs up (rq_query req) "" (rq_max_jobs req) (rq_date_posted req) (rq_sort_by req)
    (rq_refresh req) w = (Ret raw, w') →
  raw ≠ [] →
  ∃ jobs, search_jobs up req u w
          = (JSONResponse jobs (search_message (length jobs) (length raw - length jobs)), w')
        ∧ (length jobs <= length raw)%nat.
Proof.
  intros Hf Hne. unfold search_jobs. rewrite Hf.
  destruct raw as [|j raw]; [done|].
  cbv beta iota.
  rewrite transform_loop_spec. cbn [app].
  exists (map format_job (filter (not_excluded u) (j :: raw))).
  pose proof (shown_plus_filtered u (j :: raw)) as Hc.
  rewrite length_map. split; [|lia].
  do 3 f_equal. lia.
Qed.

Lemma search_counts_every_listing_witness :
  ∃ jobs, search_jobs engineer_and_analyst (sample_request true 10) (Some engineer_saver)
            fresh_world
          = (JSONResponse jobs (search_message (length jobs) (2 - length jobs)),
             snd (fetch_jobs engineer_and_analyst "python developer" "" 10 "week" "date" true
                    fresh_world))
        ∧ (length jobs <= 2)%nat.
Proof.
  apply (search_counts_every_listing engineer_and_analyst (sample_request true 10)
           (Some engineer_saver) fresh_world _ [engineer_job; analyst_job]);
    [reflexivity|discriminate].
Defined.

(* ------------------------------------------------------------------ *)
(** ** Cache key *)

Lemma string_app_assoc (a b c : string) : (a ++ b ++ c = (a ++ b) ++ c)%string.
Proof.
  induction a as [|x a IH]; [reflexivity|].
  change (String x (a ++ b ++ c) = String x ((a ++ b) ++ c))%string. by rewrite IH.
Qed.

(** The key joins its fields with "|" without escaping them, so moving a
    "|"-separated segment from [date_posted] to [sort_by] leaves the key
    unchanged: such requests read and overwrite each other's entries. *)
Theorem cache_key_separator_collision (query location d1 d2 sort_by : string) :
  _get_cache_key query location (d1 ++ "|" ++ d2) sort_by
  = _get_cache_key query location d1 (d2 ++ "|" ++ sort_by).
Proof. unfold _get_cache_key. rewrite <- !string_app_assoc. reflexivity. Qed.

(* ------------------------------------------------------------------ *)
(** ** The database endpoints *)

Lemma elem_of_map_iff {A B} (f : A → B) (l : list A) (y : B) :
  y ∈ map f l ↔ ∃ x, y = f x ∧ x ∈ l.
Proof.
  rewrite list_elem_of_In, in_map_iff.
  split; intros (x & Hx & Hin); exists x; rewrite list_elem_of_In in *; naive_solver.
Qed.

Lemma NoDup_map_snoc {A B} (f : A → B) (l : list A) (x : A) :
  NoDup (map f l) → f x ∉ map f l → NoDup (map f (l ++ [x])).
Proof.
  intros Hnd Hx. rewrite map_app. apply NoDup_app.
  split; [done|split; [|apply NoDup_singleton]].
  intros y Hy. cbn. rewrite list_elem_of_singleton. intros ->. done.
Qed.

Lemma NoDup_map_filter {A B} (f : A → B) (P : A → Prop) `{∀ x, Decision (P x)}
    (l : list A) :
  NoDup (map f l) → NoDup (map f (filter P l)).
Proof.
  induction l as [|x l IH]; [done|]. cbn [map]. rewrite NoDup_cons. intros [Hx Hnd].
  destruct (decide (P x)).
  - rewrite filter_cons_True by done. cbn [map]. rewrite NoDup_cons. split; [|auto].
    intros Hin. apply Hx. apply elem_of_map_iff in Hin as (y & Hy & Hyl).
    apply elem_of_map_iff. exists y. split; [done|].
    apply list_elem_of_filter in Hyl. tauto.
  - rewrite filter_cons_False by done. auto.
Qed.

Lemma omap_cons_eq {A B} (f : A → option B) (x : A) (l : list A) :
  omap f (x :: l) = match f x with Some y => y :: omap f l | None => omap f l end.
Proof. reflexivity. Qed.

Lemma NoDup_omap_filter {A B} (f : A → option B) (P : A → Prop) `{∀ x, Decision (P x)}
    (l : list A) :
  NoDup (omap f l) → NoDup (omap f (filter P l)).
Proof.
  induction l as [|x l IH]; [done|]. rewrite omap_cons_eq. intros Hnd.
  destruct (decide (P x)).
  - rewrite filter_cons_True, omap_cons_eq by done.
    destruct (f x) as [y|]; [|auto].
    apply NoDup_cons in Hnd as [Hy Hnd]. apply NoDup_cons. split; [|auto].
    rewrite list_elem_of_omap. intros (z & Hz & Hfz). apply Hy, list_elem_of_omap.
    exists z. apply list_elem_of_filter in Hz. tauto.
  - rewrite filter_cons_False by done.
    destruct (f x); [apply NoDup_cons in Hnd as [_ Hnd]|]; auto.
Qed.

Lemma Forall_filter_sub {A} (P Q : A → Prop) `{∀ x, Decision (Q x)} (l : list A) :
  Forall P l → Forall P (filter Q l).
Proof.
  rewrite !Forall_forall. intros HP x Hx. apply list_elem_of_filter in Hx. naive_solver.
Qed.

Lemma Forall_lt_succ {A} (f : A → Z) (l : list A) (n : Z) :
  Forall (λ x, f x < n) l → Forall (λ x, f x < n + 1) l.
Proof. intros H. eapply Forall_impl; [exact H|]. intros x Hx. cbn in *. lia. Qed.

Lemma lt_not_in_map {A} (f : A → Z) (l : list A) (n : Z) :
  Forall (λ x, f x < n) l → n ∉ map f l.
Proof.
  rewrite Forall_forall. intros H (x & Heq & Hin)%elem_of_map_iff.
  specialize (H x Hin). cbn in H. lia.
Qed.

Lemma NoDup_map_eq {A B} (f : A → B) (l : list A) (x y : A) :
  NoDup (map f l) → x ∈ l → y ∈ l → f x = f y → x = y.
Proof.
  induction l as [|z l IH]; [set_solver|]. cbn [map]. rewrite NoDup_cons.
  intros [Hz Hnd] Hx Hy Hf. rewrite elem_of_cons in Hx, Hy.
  destruct Hx as [->|Hx], Hy as [->|Hy]; auto.
  - exfalso. apply Hz. rewrite Hf. apply elem_of_map_iff. eauto.
  - exfalso. apply Hz. rewrite <- Hf. apply elem_of_map_iff. eauto.
Qed.

Lemma filter_ext_in {A} (P1 P2 : A → Prop) `{∀ x, Decision (P1 x)} `{∀ x, Decision (P2 x)}
    (l : list A) :
  (∀ x, x ∈ l → P1 x ↔ P2 x) → filter P1 l = filter P2 l.
Proof.
  induction l as [|x l IH]; intros Hiff; [done|].
  assert (Hx : P1 x ↔ P2 x) by (apply Hiff; apply elem_of_cons; by left).
  assert (IH' : filter P1 l = filter P2 l)
    by (apply IH; intros y Hy; apply Hiff; apply elem_of_cons; by right).
  destruct (decide (P1 x)) as [H1|H1].
  - rewrite (filter_cons_True P1), (filter_cons_True P2) by tauto. by rewrite IH'.
  - rewrite (filter_cons_False P1), (filter_cons_False P2) by tauto. done.
Qed.

Lemma save_job_wf (js : job_save) (user_id : Z) (uuid20 : string) (d : db) :
  db_wf d → db_wf (snd (save_job js user_id uuid20 d)).
Proof.
  destruct d as [up jt st jseq sseq now]. unfold db_wf, save_job. cbn.
  intros (Hid & Hlt & Hjid & Hsid & Hslt & Hkey).
  destruct up; cbn; [|tauto].
  case_bool_decide as Hc; cbn.
  - repeat split; auto using Forall_lt_succ.
  - repeat split; auto.
    + apply NoDup_map_snoc; [done|]. cbn. by apply lt_not_in_map.
    + apply Forall_app. split; [by apply Forall_lt_succ|]. apply Forall_singleton. cbn. lia.
    + rewrite omap_app. cbn. apply NoDup_app. split; [done|split; [|apply NoDup_singleton]].
      intros x Hx. rewrite list_elem_of_singleton. intros ->. apply Hc.
      apply list_elem_of_omap in Hx as (r & Hr & Hf). apply elem_of_map_iff. eauto.
Qed.

Lemma delete_job_wf (job_id user_id : Z) (d : db) :
  db_wf d → db_wf (snd (delete_job job_id user_id d)).
Proof.
  destruct d as [up jt st jseq sseq now]. unfold db_wf, delete_job. cbn.
  intros (Hid & Hlt & Hjid & Hsid & Hslt & Hkey).
  destruct up; cbn; [|tauto].
  destruct (filter (job_matches job_id user_id) jt); cbn; [tauto|].
  repeat split; auto using NoDup_map_filter, NoDup_omap_filter, Forall_filter_sub.
Qed.

Lemma skip_job_wf (job : job_skip) (user_id : Z) (d : db) :
  db_wf d → db_wf (snd (skip_job job user_id d)).
Proof.
  destruct d as [up jt st jseq sseq now]. unfold db_wf, skip_job. cbn.
  intros (Hid & Hlt & Hjid & Hsid & Hslt & Hkey).
  destruct up; cbn; [|tauto].
  case_bool_decide as Hc; cbn.
  - repeat split; auto using Forall_lt_succ.
  - repeat split; auto.
    + apply NoDup_map_snoc; [done|]. cbn. by apply lt_not_in_map.
    + apply Forall_app. split; [by apply Forall_lt_succ|]. apply Forall_singleton. cbn. lia.
    + by apply NoDup_map_snoc.
Qed.

Lemma delete_skipped_job_wf (skipped_id user_id : Z) (d : db) :
  db_wf d → db_wf (snd (delete_skipped_job skipped_id user_id d)).
Proof.
  destruct d as [up jt st jseq sseq now]. unfold db_wf, delete_skipped_job. cbn.
  intros (Hid & Hlt & Hjid & Hsid & Hslt & Hkey).
  destruct up; cbn; [|tauto].
  destruct (filter (skipped_matches skipped_id user_id) st); cbn; [tauto|].
  repeat split; auto using NoDup_map_filter, Forall_filter_sub.
Qed.

(** The writing endpoints keep the tables' integrity: ids stay distinct
    and below their sequence, [jobs.job_id]s stay distinct and a user has
    at most one [skipped_jobs] row per (title, company, location). *)
Theorem endpoints_keep_db_wf (d : db) (js : job_save) (jk : job_skip) (user_id id : Z)
    (uuid20 : string) :
  db_wf d →
  db_wf (snd (save_job js user_id uuid20 d)) ∧ db_wf (snd (delete_job id user_id d)) ∧
  db_wf (snd (skip_job jk user_id d)) ∧ db_wf (snd (delete_skipped_job id user_id d)).
Proof.
  intros Hwf. split; [|split; [|split]];
    auto using save_job_wf, delete_job_wf, skip_job_wf, delete_skipped_job_wf.
Qed.

Lemma endpoints_keep_db_wf_witness :
  db_wf (snd (save_job (mk_job_save "Engineer" "Acme" (Some "NYC") None None None None None)
                1 "3f2a" sample_db)).
Proof.
  refine (proj1 (endpoints_keep_db_wf sample_db
            (mk_job_save "Engineer" "Acme" (Some "NYC") None None None None None)
            (mk_job_skip "Cook" "Diner" None) 1 1 "3f2a" _)).
  unfold db_wf; cbn. repeat split; apply (bool_decide_unpack _); vm_compute; reflexivity.
Defined.

Global Instance id_desc_total : Total id_desc.
Proof. intros a b. unfold id_desc. lia. Qed.

Lemma Sorted_id_desc_strict (l : list job_row) :
  Sorted id_desc l → NoDup (map jr_id l) → Sorted (λ a b, jr_id b < jr_id a) l.
Proof.
  induction 1 as [|x l Hs IH Hhd]; [constructor|]. cbn [map]. rewrite NoDup_cons.
  intros [Hx Hnd]. constructor; [by apply IH|].
  destruct Hhd as [|y l' Hy]; constructor. unfold id_desc in Hy.
  assert (jr_id y ≠ jr_id x); [|lia].
  intros Heq. apply Hx. rewrite <- Heq. apply list_elem_of_In. now left.
Qed.

(** [get_jobs] answers only rows of the requesting user, newest first
    (strictly decreasing ids); without a truthy [company] or [location]
    filter it answers all of them. *)
Theorem get_jobs_own_rows_newest_first (ilike : string → string → bool)
    (company location : option string) (user_id : Z) (d : db) (rs : list job_row) :
  NoDup (map jr_id (jobs_tbl d)) →
  get_jobs ilike company location user_id d = ApiOk rs →
  (∀ r, r ∈ rs → r ∈ jobs_tbl d ∧ jr_user_id r = Some user_id) ∧
  Sorted (λ a b, jr_id b < jr_id a) rs ∧
  (opt_truthy company = None → opt_truthy location = None →
   rs ≡ₚ filter (λ r, jr_user_id r = Some user_id) (jobs_tbl d)).
Proof.
  intros Hnd. unfold get_jobs. destruct (db_up d); cbn; [|discriminate].
  intros [= <-].
  set (P := λ r : job_row, jr_user_id r = Some user_id ∧ _ ∧ _).
  pose proof (merge_sort_Permutation id_desc (filter P (jobs_tbl d))) as Hperm.
  split; [|split].
  - intros r Hr. rewrite Hperm in Hr. apply list_elem_of_filter in Hr as [HP Hr].
    split; [done|]. apply HP.
  - apply Sorted_id_desc_strict; [apply Sorted_merge_sort; exact id_desc_total|].
    assert (Hpm : map jr_id (merge_sort id_desc (filter P (jobs_tbl d)))
                  ≡ₚ map jr_id (filter P (jobs_tbl d))) by (apply Permutation_map, Hperm).
    rewrite Hpm. by apply NoDup_map_filter.
  - intros Hc Hl. rewrite Hperm. subst P. rewrite Hc, Hl.
    apply reflexive_eq, list_filter_iff. tauto.
Qed.

Lemma get_jobs_own_rows_newest_first_witness :
  get_jobs (λ _ _, true) None None 1 sample_db
  = ApiOk [sample_row 3 "77b0" "Designer" "Bar" "SF" 1;
           sample_row 1 "3f2a" "Engineer" "Acme" "NYC" 1] ∧
  Sorted (λ a b, jr_id b < jr_id a)
    [sample_row 3 "77b0" "Designer" "Bar" "SF" 1; sample_row 1 "3f2a" "Engineer" "Acme" "NYC" 1].
Proof.
  assert (Hg : get_jobs (λ _ _, true) None None 1 sample_db
               = ApiOk [sample_row 3 "77b0" "Designer" "Bar" "SF" 1;
                        sample_row 1 "3f2a" "Engineer" "Acme" "NYC" 1]) by reflexivity.
  split; [exact Hg|].
  refine (proj1 (proj2 (get_jobs_own_rows_newest_first _ None None 1 sample_db _ _ Hg))).
  apply (bool_decide_unpack _); vm_compute; reflexivity.
Defined.

Lemma filter_nil_of_none {A} (P : A → Prop) `{∀ x, Decision (P x)} (l : list A) :
  (∀ x, x ∈ l → ¬ P x) → filter P l = [].
Proof.
  induction l as [|x l IH]; intros Hn; [done|].
  rewrite filter_cons_False by (apply Hn; apply elem_of_cons; by left).
  apply IH. intros y Hy. apply Hn. apply elem_of_cons. by right.
Qed.

(** [delete_job] deletes only the caller's own row: for an id that is not
    one of the caller's rows it answers 404 and changes nothing; for one
    of them it removes exactly the row with that id. *)
Theorem delete_job_owner_only (job_id user_id : Z) (d : db) :
  db_up d = true → NoDup (map jr_id (jobs_tbl d)) →
  ((∀ r, r ∈ jobs_tbl d → jr_id r = job_id → jr_user_id r ≠ Some user_id) →
   delete_job job_id user_id d = (ApiHTTP 404 "Job not found", d)) ∧
  (∀ r, r ∈ jobs_tbl d → jr_id r = job_id → jr_user_id r = Some user_id →
   delete_job job_id user_id d
   = (ApiOk tt, set_jobs d (filter (λ r', jr_id r' ≠ job_id) (jobs_tbl d)) (jobs_seq d))).
Proof.
  intros Hup Hnd. unfold delete_job. rewrite Hup. cbn [negb]. split.
  - intros Hnone. rewrite filter_nil_of_none; [done|].
    intros r Hr [Hid Hu]. by apply (Hnone r).
  - intros r Hr Hid Hu.
    destruct (filter (job_matches job_id user_id) (jobs_tbl d)) eqn:E.
    + exfalso. eapply filter_nil_not_elem_of; [exact E| |exact Hr]. by split.
    + do 3 f_equal. apply filter_ext_in. intros r' Hr'. unfold job_matches.
      split.
      * intros Hn Heq. apply Hn. split; [done|].
        assert (r' = r) as -> by (apply (NoDup_map_eq jr_id (jobs_tbl d)); auto; lia).
        done.
      * intros Hn [Heq _]. done.
Qed.

Lemma delete_job_owner_only_witness :
  delete_job 2 1 sample_db = (ApiHTTP 404 "Job not found", sample_db).
Proof.
  apply (delete_job_owner_only 2 1 sample_db eq_refl);
    [apply (bool_decide_unpack _); vm_compute; reflexivity|].
  intros r Hr Hid. repeat (apply elem_of_cons in Hr as [->|Hr]; [cbn in *; congruence|]).
  by apply not_elem_of_nil in Hr.
Defined.

(** [delete_skipped_job] likewise removes only the caller's own skipped
    row and answers 404 with no change for any other id. *)
Theorem delete_skipped_job_owner_only (skipped_id user_id : Z) (d : db) :
  db_up d = true → NoDup (map sr_id (skipped_tbl d)) →
  ((∀ r, r ∈ skipped_tbl d → sr_id r = skipped_id → sr_user_id r ≠ user_id) →
   delete_skipped_job skipped_id user_id d = (ApiHTTP 404 "Skipped job not found", d)) ∧
  (∀ r, r ∈ skipped_tbl d → sr_id r = skipped_id → sr_user_id r = user_id →
   delete_skipped_job skipped_id user_id d
   = (ApiOk tt, set_skipped d (filter (λ r', sr_id r' ≠ skipped_id) (skipped_tbl d))
                  (skipped_seq d))).
Proof.
  intros Hup Hnd. unfold delete_skipped_job. rewrite Hup. cbn [negb]. split.
  - intros Hnone. rewrite filter_nil_of_none; [done|].
    intros r Hr [Hid Hu]. by apply (Hnone r).
  - intros r Hr Hid Hu.
    destruct (filter (skipped_matches skipped_id user_id) (skipped_tbl d)) eqn:E.
    + exfalso. eapply filter_nil_not_elem_of; [exact E| |exact Hr]. by split.
    + do 3 f_equal. apply filter_ext_in. intros r' Hr'. unfold skipped_matches.
      split.
      * intros Hn Heq. apply Hn. split; [done|].
        assert (r' = r) as -> by (apply (NoDup_map_eq sr_id (skipped_tbl d)); auto; lia).
        done.
      * intros Hn [Heq _]. done.
Qed.

Lemma delete_skipped_job_owner_only_witness :
  delete_skipped_job 1 1 sample_db = (ApiHTTP 404 "Skipped job not found", sample_db).
Proof.
  apply (delete_skipped_job_owner_only 1 1 sample_db eq_refl);
    [apply (bool_decide_unpack _); vm_compute; reflexivity|].
  intros r Hr Hid. repeat (apply elem_of_cons in Hr as [->|Hr]; [cbn in *; congruence|]).
  by apply not_elem_of_nil in Hr.
Defined.

(** Skipping the same listing twice stores it once: the second call
    leaves both tables as the first left them, and the skipped key is
    stored. *)
Theorem skip_job_idempotent (job : job_skip) (user_id : Z) (d d1 d2 : db) :
  skip_job job user_id d = (ApiOk tt, d1) →
  skip_job job user_id d1 = (ApiOk tt, d2) →
  skipped_tbl d2 = skipped_tbl d1 ∧ jobs_tbl d2 = jobs_tbl d1 ∧ jobs_tbl d1 = jobs_tbl d ∧
  (user_id, jk_title job, jk_company job, Py.or_empty (jk_location job))
    ∈ map skip_key (skipped_tbl d1).
Proof.
  intros H1 H2.
  unfold skip_job in H1. destruct (db_up d) eqn:Hu; cbn [negb] in H1; [|discriminate].
  assert (Hk : (user_id, jk_title job, jk_company job, Py.or_empty (jk_location job))
               ∈ map skip_key (skipped_tbl d1) ∧ jobs_tbl d1 = jobs_tbl d ∧ db_up d1 = true).
  { revert H1. case_bool_decide as Hc; intros H1; injection H1 as <-; cbn;
      (split; [|split; [done|exact Hu]]).
    - exact Hc.
    - rewrite map_app. apply elem_of_app. right. apply list_elem_of_singleton. reflexivity. }
  destruct Hk as (Hk & Hj & Hu1).
  unfold skip_job in H2. rewrite Hu1 in H2. cbn [negb] in H2.
  rewrite bool_decide_true in H2 by exact Hk.
  injection H2 as <-. cbn. auto.
Qed.

Lemma skip_job_idempotent_witness :
  skipped_tbl (snd (skip_job (mk_job_skip "Cook" "Diner" (Some "Boston")) 2
                      (snd (skip_job (mk_job_skip "Cook" "Diner" (Some "Boston")) 2 sample_db))))
  = skipped_tbl (snd (skip_job (mk_job_skip "Cook" "Diner" (Some "Boston")) 2 sample_db)).
Proof.
  refine (proj1 (skip_job_idempotent (mk_job_skip "Cook" "Diner" (Some "Boston")) 2 sample_db
                   _ _ eq_refl eq_refl)).
Defined.

Lemma user_saved_rows_elem (user_id : Z) (rs : list job_row) (saved : list row)
    (r : job_row) (t c : string) (l : option string) :
  user_saved_rows user_id rs = Some saved → r ∈ rs → jr_user_id r = Some user_id →
  jr_title r = Some t → jr_company r = Some c → jr_location r = l → (t, c, l) ∈ saved.
Proof.
  revert saved. induction rs as [|r0 rs IH]; intros saved; cbn [user_saved_rows].
  { intros _ Hr. by apply not_elem_of_nil in Hr. }
  intros Hs Hr Hu Ht Hc <-. rewrite elem_of_cons in Hr.
  case_bool_decide as H0.
  - destruct (jr_title r0) as [t0|] eqn:Ht0; [|discriminate].
    destruct (jr_company r0) as [c0|] eqn:Hc0; [|discriminate].
    destruct (user_saved_rows user_id rs) as [acc|] eqn:Hacc; [|discriminate].
    injection Hs as <-. destruct Hr as [->|Hr].
    + rewrite Ht in Ht0. rewrite Hc in Hc0. injection Ht0 as <-. injection Hc0 as <-.
      apply elem_of_cons. by left.
    + apply elem_of_cons. right. eauto.
  - destruct Hr as [->|Hr]; [congruence|]. eauto.
Qed.

Lemma search_jobs_shown (up : upstream) (req : search_request) (u : option user_rows)
    (w : world) (jobs : list out_job) (msg : string) :
  fst (search_jobs up req u w) = JSONResponse jobs msg →
  ∀ o, o ∈ jobs → ∃ j, o = format_job j ∧ not_excluded u j.
Proof.
  unfold search_jobs.
  destruct (fetch_jobs _ _ _ _ _ _ _ _) as [[raw|e] w'].
  - destruct raw as [|j0 raw]; cbv beta iota.
    + intros [= <- _] o Ho. by apply not_elem_of_nil in Ho.
    + rewrite transform_loop_spec. cbn [fst app]. intros [= <- _] o Ho.
      apply elem_of_map_iff in Ho as (j & -> & Hj). apply list_elem_of_filter in Hj.
      exists j. tauto.
  - cbn. discriminate.
Qed.

Lemma job_key_of_format (j : job) :
  job_key j = (Py.lower (o_title (format_job j)), Py.lower (o_company (format_job j)),
               Py.lower (o_location (format_job j))).
Proof. reflexivity. Qed.

Lemma save_job_keeps_rows (js : job_save) (user_id : Z) (uuid20 : string) (d : db) :
  (∀ r, r ∈ jobs_tbl d → r ∈ jobs_tbl (snd (save_job js user_id uuid20 d))) ∧
  skipped_tbl (snd (save_job js user_id uuid20 d)) = skipped_tbl d.
Proof.
  unfold save_job. destruct (db_up d); cbn [negb]; [|done].
  case_bool_decide; cbn; [done|]. split; [|done].
  intros r Hr. apply elem_of_app. by left.
Qed.

Lemma skip_job_keeps_rows (k : job_skip) (user_id : Z) (d : db) :
  jobs_tbl (snd (skip_job k user_id d)) = jobs_tbl d ∧
  (∀ s, s ∈ skipped_tbl d → s ∈ skipped_tbl (snd (skip_job k user_id d))).
Proof.
  unfold skip_job. destruct (db_up d); cbn [negb]; [|done].
  case_bool_decide; cbn; [done|]. split; [done|].
  intros s Hs. apply elem_of_app. by left.
Qed.

Lemma delete_job_keeps_rows (job_id user_id : Z) (d : db) :
  skipped_tbl (snd (delete_job job_id user_id d)) = skipped_tbl d ∧
  (∀ r, r ∈ jobs_tbl d → ¬ job_matches job_id user_id r →
        r ∈ jobs_tbl (snd (delete_job job_id user_id d))).
Proof.
  unfold delete_job. destruct (db_up d); cbn [negb]; [|done].
  destruct (filter (job_matches job_id user_id) (jobs_tbl d)) as [|r0 l0]; cbn; [done|].
  split; [done|]. intros r Hr Hn. by apply list_elem_of_filter.
Qed.

Lemma delete_skipped_job_keeps_rows (skipped_id user_id : Z) (d : db) :
  jobs_tbl (snd (delete_skipped_job skipped_id user_id d)) = jobs_tbl d ∧
  (∀ s, s ∈ skipped_tbl d → ¬ skipped_matches skipped_id user_id s →
        s ∈ skipped_tbl (snd (delete_skipped_job skipped_id user_id d))).
Proof.
  unfold delete_skipped_job. destruct (db_up d); cbn [negb]; [|done].
  destruct (filter (skipped_matches skipped_id user_id) (skipped_tbl d)) as [|s0 l0]; cbn; [done|].
  split; [done|]. intros s Hs Hn. by apply list_elem_of_filter.
Qed.

(** No endpoint removes or changes a stored row, save [delete_job] and
    [delete_skipped_job] called by the row's owner with the row's id:
    [save_job] only adds to [jobs], [skip_job] only adds to
    [skipped_jobs], and each delete leaves the other table alone and
    keeps every row that is not the caller's row with the given id.  This
    holds whatever the calls answer (success, conflict, 404 or 500). *)
Theorem endpoints_keep_other_rows :
  (∀ js user_id uuid20 d,
     (∀ r, r ∈ jobs_tbl d → r ∈ jobs_tbl (snd (save_job js user_id uuid20 d))) ∧
     skipped_tbl (snd (save_job js user_id uuid20 d)) = skipped_tbl d) ∧
  (∀ k user_id d,
     jobs_tbl (snd (skip_job k user_id d)) = jobs_tbl d ∧
     (∀ s, s ∈ skipped_tbl d → s ∈ skipped_tbl (snd (skip_job k user_id d)))) ∧
  (∀ job_id user_id d,
     skipped_tbl (snd (delete_job job_id user_id d)) = skipped_tbl d ∧
     (∀ r, r ∈ jobs_tbl d → ¬ (jr_id r = job_id ∧ jr_user_id r = Some user_id) →
           r ∈ jobs_tbl (snd (delete_job job_id user_id d)))) ∧
  (∀ skipped_id user_id d,
     jobs_tbl (snd (delete_skipped_job skipped_id user_id d)) = jobs_tbl d ∧
     (∀ s, s ∈ skipped_tbl d → ¬ (sr_id s = skipped_id ∧ sr_user_id s = user_id) →
           s ∈ skipped_tbl (snd (delete_skipped_job skipped_id user_id d)))).
Proof.
  split; [exact save_job_keeps_rows|].
  split; [exact skip_job_keeps_rows|].
  split; [exact delete_job_keeps_rows|exact delete_skipped_job_keeps_rows].
Qed.

(** Saving or skipping a listing that a search displayed (sending back
    its title, company and location) hides it from every later search of
    the same user, in any later database state that still holds the row
    the call stored (for a skip, the row with the skipped key, which may
    predate the call) and from which the user's saved and skipped rows
    load. *)
Theorem saved_or_skipped_listing_is_hidden (up : upstream) (req : search_request)
    (w : world) (j : job) (user_id : Z) (d d' d'' : db) (ur : user_rows)
    (jobs : list out_job) (msg : string) :
  (∃ k, jk_title k = o_title (format_job j) ∧ jk_company k = o_company (format_job j) ∧
        jk_location k = Some (o_location (format_job j)) ∧
        skip_job k user_id d = (ApiOk tt, d') ∧
        (∀ s, s ∈ skipped_tbl d' →
              skip_key s = (user_id, jk_title k, jk_company k, Py.or_empty (jk_location k)) →
              s ∈ skipped_tbl d''))
  ∨ (∃ js uuid20 id, js_title js = o_title (format_job j) ∧
        js_company js = o_company (format_job j) ∧
        js_location js = Some (o_location (format_job j)) ∧
        save_job js user_id uuid20 d = (ApiOk id, d') ∧
        (∀ r, r ∈ jobs_tbl d' → jr_id r = id → r ∈ jobs_tbl d'')) →
  load_user_rows d'' user_id = Some ur →
  fst (search_jobs up req (Some ur) w) = JSONResponse jobs msg →
  format_job j ∉ jobs.
Proof.
  intros Hact Hload Hsearch.
  assert (Hex : job_key j ∈ excluded_jobs (Some ur)).
  { unfold load_user_rows in Hload.
    destruct (db_up d'') eqn:Hu''; cbn [negb] in Hload; [|discriminate].
    destruct (user_saved_rows user_id (jobs_tbl d'')) as [saved|] eqn:Hsaved; [|discriminate].
    injection Hload as <-. cbn [excluded_jobs saved_rows skipped_rows].
    apply elem_of_app. rewrite job_key_of_format.
    destruct Hact as [(k & Ht & Hc & Hl & Hskip & Hkeep)
                     |(js & uuid20 & id & Ht & Hc & Hl & Hsave & Hkeep)].
    - right. unfold skip_job in Hskip.
      destruct (db_up d); cbn [negb] in Hskip; [|discriminate].
      set (r := mk_skipped_row (skipped_seq d) user_id (jk_title k) (jk_company k)
                  (Py.or_empty (jk_location k)) (db_now d)) in Hskip.
      assert (Hr : ∃ s, s ∈ skipped_tbl d' ∧ skip_key s = skip_key r).
      { revert Hskip. case_bool_decide as Hc'; intros Hskip; injection Hskip as <-; cbn.
        - apply elem_of_map_iff in Hc' as (s & Hs & Hsin). eauto.
        - exists r. split; [|done]. apply elem_of_app. right. by apply list_elem_of_singleton. }
      destruct Hr as (s & Hs & Hks).
      apply Hkeep in Hs; [|exact Hks].
      unfold skip_key in Hks. cbn in Hks.
      injection Hks as Hsu Hst Hsc Hsl.
      apply elem_of_map_iff. exists (skipped_row_of s). split.
      + unfold row_key, skipped_row_of. cbn [Py.or_empty].
        rewrite Hst, Hsc, Hsl, Ht, Hc, Hl. reflexivity.
      + apply elem_of_map_iff. exists s. split; [done|]. apply list_elem_of_filter. done.
    - left. unfold save_job in Hsave.
      destruct (db_up d); cbn [negb] in Hsave; [|discriminate].
      revert Hsave. case_bool_decide; intros Hsave; [discriminate|].
      injection Hsave as Hid <-.
      apply elem_of_map_iff.
      exists (js_title js, js_company js, js_location js). split.
      + rewrite Ht, Hc, Hl. reflexivity.
      + eapply (user_saved_rows_elem user_id _ saved); [exact Hsaved| | | | |].
        * apply Hkeep; [apply elem_of_app; right; by apply list_elem_of_singleton|exact Hid].
        * reflexivity.
        * reflexivity.
        * reflexivity.
        * reflexivity. }
  intros Hin. destruct (search_jobs_shown up req (Some ur) w jobs msg Hsearch _ Hin)
    as (j' & Heq & Hnot).
  apply Hnot. unfold not_excluded. rewrite job_key_of_format, <- Heq, <- job_key_of_format.
  exact Hex.
Qed.

(** User 3 skips the Acme engineering job; user 1 then saves another job;
    the next search of user 3 still hides it. *)
Definition hide_sample_d' : db :=
  snd (skip_job (mk_job_skip "Engineer" "Acme" (Some "NYC")) 3 sample_db).

Definition hide_sample_save : job_save :=
  mk_job_save "Baker" "Bakery" (Some "Paris") None None None None None.

Definition hide_sample_d'' : db :=
  snd (save_job hide_sample_save 1 "0f3c9a2e-5b7d-4e1a-" hide_sample_d').

Lemma saved_or_skipped_listing_is_hidden_witness :
  format_job engineer_job ∉ [format_job analyst_job].
Proof.
  apply (saved_or_skipped_listing_is_hidden engineer_and_analyst (sample_request true 10)
           fresh_world engineer_job 3 sample_db hide_sample_d' hide_sample_d''
           (mk_user_rows [] [("Engineer", "Acme", Some "NYC")])
           [format_job analyst_job] "Found 1 jobs (1 already saved/skipped)").
  - left. exists (mk_job_skip "Engineer" "Acme" (Some "NYC")).
    split; [reflexivity|split; [reflexivity|split; [reflexivity|split; [reflexivity|]]]].
    intros s Hs _. unfold hide_sample_d''.
    rewrite (proj2 (save_job_keeps_rows hide_sample_save 1 "0f3c9a2e-5b7d-4e1a-" hide_sample_d')).
    exact Hs.
  - vm_compute. reflexivity.
  - vm_compute. reflexivity.
Defined.

Lemma fetchone_Some (p : job_row → bool) (rs : list job_row) (r : job_row) :
  fetchone p rs = Some r → r ∈ rs ∧ p r = true.
Proof.
  induction rs as [|r0 rs IH]; cbn [fetchone]; [discriminate|].
  destruct (p r0) eqn:Hp.
  - intros [= <-]. split; [apply elem_of_cons; by left|done].
  - intros H. destruct (IH H). split; [apply elem_of_cons; by right|done].
Qed.

Lemma fetchone_None (p : job_row → bool) (rs : list job_row) :
  fetchone p rs = None → ∀ r, r ∈ rs → p r = false.
Proof.
  induction rs as [|r0 rs IH]; cbn [fetchone]; intros H r Hr;
    [by apply not_elem_of_nil in Hr|].
  destruct (p r0) eqn:Hp; [discriminate|].
  apply elem_of_cons in Hr as [->|Hr]; auto.
Qed.

Lemma int_of_digits_acc_None (s : string) (acc : Z) :
  Py.all_chars Py.isdecimal_char s = false → Py.int_of_digits_acc s acc = None.
Proof.
  revert acc. induction s as [|c s IH]; intros acc;
    cbn [Py.all_chars Py.int_of_digits_acc]; [discriminate|].
  destruct (Py.isdecimal_char c); cbn [andb]; [apply IH|done].
Qed.

(** [get_job] looks a job up without any owner check.  A [job_id] that
    passes [isdigit] but holds a non-decimal digit (a superscript such as
    "²") makes [int()] raise a [ValueError] that its [except psycopg2.Error]
    does not catch.  Otherwise a row is answered only if its [job_id]
    equals the path segment or, for a digit string, its [id] equals the
    segment's value; a 404 means no row has that [job_id]. *)
Theorem get_job_lookup (job_id : string) (d : db) :
  db_up d = true →
  (Py.isdigit job_id = true → Py.all_chars Py.isdecimal_char job_id = false →
   get_job job_id d = ApiRaise ValueError) ∧
  (∀ r, get_job job_id d = ApiOk r →
   r ∈ jobs_tbl d ∧
   (jr_job_id r = Some job_id ∨
    (Py.isdigit job_id = true ∧ Py.int_of_digits job_id = Some (jr_id r)))) ∧
  (∀ status detail, get_job job_id d = ApiHTTP status detail →
   status = 404 ∧ ∀ r, r ∈ jobs_tbl d → jr_job_id r ≠ Some job_id).
Proof.
  intros Hup. unfold get_job. rewrite Hup. cbn [negb]. cbv zeta.
  split; [|split].
  - intros Hd Hdec. rewrite Hd. unfold Py.int_of_digits.
    rewrite int_of_digits_acc_None by done. reflexivity.
  - intros r. destruct (Py.isdigit job_id) eqn:Hd.
    + destruct (Py.int_of_digits job_id) as [n|] eqn:Hn; cbv iota; [|discriminate].
      destruct (fetchone _ _) as [r'|] eqn:Hf; cbv iota; [|discriminate]. intros [= <-].
      apply fetchone_Some in Hf as [Hin Hp]. split; [done|].
      apply orb_true_iff in Hp as [Hp|Hp]; apply bool_decide_eq_true in Hp;
        [right; split; congruence|left; done].
    + destruct (fetchone _ _) as [r'|] eqn:Hf; cbv iota; [|discriminate]. intros [= <-].
      apply fetchone_Some in Hf as [Hin Hp]. apply bool_decide_eq_true in Hp. auto.
  - intros status detail. destruct (Py.isdigit job_id) eqn:Hd.
    + destruct (Py.int_of_digits job_id) as [n|] eqn:Hn; cbv iota; [|discriminate].
      destruct (fetchone _ _) as [r'|] eqn:Hf; cbv iota; [discriminate|]. intros [= <- _].
      split; [done|]. intros r Hr Hj. pose proof (fetchone_None _ _ Hf r Hr) as Hp.
      cbv beta in Hp. apply orb_false_iff in Hp as [_ Hp].
      apply bool_decide_eq_false in Hp. done.
    + destruct (fetchone _ _) as [r'|] eqn:Hf; cbv iota; [discriminate|]. intros [= <- _].
      split; [done|]. intros r Hr Hj. pose proof (fetchone_None _ _ Hf r Hr) as Hp.
      cbv beta in Hp. apply bool_decide_eq_false in Hp. done.
Qed.

Lemma get_job_lookup_witness :
  get_job (String "1" (String (ascii_of_nat 178) EmptyString)) sample_db = ApiRaise ValueError.
Proof. apply (proj1 (get_job_lookup _ sample_db eq_refl)); reflexivity. Defined.

(** With [refresh] set, the first Redis access of a process is the
    [_set_cache] after pagination: a connect timeout there escapes
    [fetch_jobs], so the listings already fetched are lost and the search
    answers 500.  [_redis_client] was assigned before the failing [ping],
    so the same request succeeds afterwards. *)
Theorem refresh_connect_timeout_loses_listings (up : upstream) (req : search_request)
    (u : option user_rows) (w : world) :
  w_client w = false → b_ping (w_backend w) = Some RTimeoutError → rq_refresh req = true →
  paginate up (rq_max_jobs req) ≠ [] →
  search_jobs up req u w
  = (HTTPError 500 "Timeout connecting to server", mk_world true (w_backend w)) ∧
  ∃ jobs msg, fst (search_jobs up req u (mk_world true (w_backend w))) = JSONResponse jobs msg.
Proof.
  intros Hc Hp Hr Hne. unfold search_jobs, fetch_jobs. rewrite Hr.
  destruct (paginate up (rq_max_jobs req)) as [|x xs]; [done|].
  split.
  - unfold _set_cache, _get_redis. rewrite Hc, Hp. reflexivity.
  - unfold _set_cache, _get_redis. cbn -[transform_loop search_message].
    destruct (b_set (w_backend w)); cbn -[transform_loop search_message];
      destruct (transform_loop _ _ _ _ _) as [js cnt]; eexists _, _; reflexivity.
Qed.

Lemma refresh_connect_timeout_loses_listings_witness :
  fst (search_jobs engineer_and_analyst (sample_request true 25) None timeout_world)
  = HTTPError 500 "Timeout connecting to server".
Proof.
  destruct (refresh_connect_timeout_loses_listings engineer_and_analyst (sample_request true 25)
              None timeout_world eq_refl eq_refl eq_refl) as [H _].
  - vm_compute. discriminate.
  - by rewrite H.
Defined.
